(** * The rspack configuration adapter (packages/rspack/src/config/adapter.ts)

    A shallow embedding of the adapter that turns the normalized
    configuration into the canonical [RawOptions] tree, and the properties
    of its condition encoder, module-rule compiler, optimization encoder and
    section encoders. *)

From Stdlib Require Import ZArith Ascii String List Bool.
From stdpp Require Import base option list strings gmap fin_maps.

Local Open Scope string_scope.
Local Open Scope Z_scope.
Local Open Scope list_scope.
Local Set Warnings "-register-all".

(** ** JavaScript runtime values

    The adapter inspects conditions at run time ([typeof], [instanceof],
    [Array.isArray], truthiness), so conditions are values of the untyped
    universe below.  An object is given by its class and by what reading a
    property returns ([JUndefined] for a property it does not have): the
    adapter only ever reads properties of an object. Numbers are the
    integers; the adapter does no arithmetic. *)

Record RegExp := mkRegExp { source : string; flags : string }.

(** Which kind of non-array, non-RegExp object a value is. Both kinds have
    [Object.prototype] on their prototype chain. *)
Inductive ObjectClass :=
| PlainObject      (* an object literal: { and: ..., or: ..., not: ... } *)
| FunctionObject.  (* a function or arrow function *)

Inductive JsValue :=
| JUndefined
| JNull
| JBool (b : bool)
| JNum (n : Z)
| JStr (s : string)
| JRegExp (r : RegExp)
| JArr (elems : list JsValue)
| JObj (cls : ObjectClass) (get : string → JsValue).

(** An object literal [{ k1: v1, k2: v2, ... }]: reading [key] gives the
    value of the last property written under that key. *)
Definition lookup_prop (props : list (string * JsValue)) (key : string) : JsValue :=
  fold_left (λ found kv, if String.eqb kv.1 key then kv.2 else found)
    props JUndefined.

Definition object (props : list (string * JsValue)) : JsValue :=
  JObj PlainObject (lookup_prop props).

(** [function () {...}]: a function with no own property the adapter reads. *)
Definition function : JsValue := JObj FunctionObject (fun _ => JUndefined).

(** ToBoolean: what [v ? a : b] and [!v] test. *)
Definition truthy (v : JsValue) : bool :=
  match v with
  | JUndefined | JNull => false
  | JBool b => b
  | JNum n => negb (n =? 0)
  | JStr s => negb (String.eqb s "")
  | JRegExp _ | JArr _ | JObj _ _ => true
  end.

(** [typeof v === "string"] *)
Definition typeof_string (v : JsValue) : bool :=
  match v with JStr _ => true | _ => false end.

(** [v instanceof RegExp] *)
Definition instanceof_RegExp (v : JsValue) : bool :=
  match v with JRegExp _ => true | _ => false end.

(** [Array.isArray(v)] *)
Definition Array_isArray (v : JsValue) : bool :=
  match v with JArr _ => true | _ => false end.

(** [v instanceof Object]: arrays, patterns, functions and plain objects. *)
Definition instanceof_Object (v : JsValue) : bool :=
  match v with JRegExp _ | JArr _ | JObj _ _ => true | _ => false end.

(** [v.key] for the keys the logical encoder reads ([and], [or], [not]), on
    a value that is not nullish: the property of an object, and [undefined]
    on a text, a number, a boolean, a pattern or an array, which have no such
    property. *)
Definition get_prop (v : JsValue) (key : string) : JsValue :=
  match v with
  | JObj _ get => get key
  | _ => JUndefined
  end.

(** [a ?? b] *)
Definition nullish_or (a b : JsValue) : JsValue :=
  match a with JUndefined | JNull => b | _ => a end.

(** ** Exceptions *)

Inductive Exception :=
| AssertionError (message : option string)  (* thrown by [assert] *)
| Error (message : string)                  (* [throw new Error(message)] *)
| TypeError (message : string).             (* raised by the runtime *)

Inductive result (A : Type) :=
| Ok (a : A)
| Throw (e : Exception).
Arguments Ok {A} a.
Arguments Throw {A} e.

Global Instance result_ret : MRet result := fun A a => Ok a.
Global Instance result_bind : MBind result := fun A B f r =>
  match r with Ok a => f a | Throw e => Throw e end.
Global Instance result_fmap : FMap result := fun A B f r =>
  match r with Ok a => Ok (f a) | Throw e => Throw e end.

(** [l.map(f)] where [f] may throw: left to right, the first exception
    wins. *)
Section array_map.
Context {A B : Type} (f : A → result B).

Fixpoint array_map (l : list A) : result (list B) :=
  match l with
  | [] => Ok []
  | x :: rest =>
      match f x with
      | Ok y => match array_map rest with
                | Ok ys => Ok (y :: ys)
                | Throw e => Throw e
                end
      | Throw e => Throw e
      end
  end.

End array_map.

(** [v.map(f)] on a value [v] already known to be truthy. Among the values
    modelled only arrays have a [map] method: texts, numbers, booleans and
    patterns have none, there are no typed arrays, and a function held in a
    property of an object stands for a value only and is never called, so an
    object that brings a [map] method of its own is outside the model. *)
Definition call_map {B} (v : JsValue) (f : JsValue → result B) : result (list B) :=
  match v with
  | JArr l => array_map f l
  | _ => Throw (TypeError "map is not a function")
  end.

(** ** The canonical condition ([RawRuleSetCondition] of the binding) *)

Inductive RawRuleSetCondition :=
| RawString (stringMatcher : string)
| RawRegexp (regexpMatcher : string)
| RawArray (arrayMatcher : list RawRuleSetCondition)
| RawLogical (logicalMatcher : list RawRuleSetLogicalConditions)
with RawRuleSetLogicalConditions :=
| mkRawLogical (and : option (list RawRuleSetCondition))
               (or : option (list RawRuleSetCondition))
               (not : option RawRuleSetCondition).

Definition raw_and (r : RawRuleSetLogicalConditions) :=
  match r with mkRawLogical a _ _ => a end.
Definition raw_or (r : RawRuleSetLogicalConditions) :=
  match r with mkRawLogical _ o _ => o end.
Definition raw_not (r : RawRuleSetLogicalConditions) :=
  match r with mkRawLogical _ _ n => n end.

Definition unreachable_message : string :=
  "unreachable: condition should be one of string, RegExp, Array, Object".

(** ** getRawRuleSetCondition / getRawRuleSetLogicalConditions

    The two functions call each other.  The body of the logical encoder is
    written once, over the reader of the object's properties and the
    condition encoder it calls back. *)

Section logical_conditions.
Variable encode : JsValue → result RawRuleSetCondition.
Variable logical : string → JsValue.   (* [logical.key] *)

Definition logicalConditions : result RawRuleSetLogicalConditions :=
  and ← (if truthy (logical "and")
         then Some <$> call_map (logical "and") encode
         else Ok None);
  or ← (if truthy (logical "or")
        then Some <$> call_map (logical "or") encode
        else Ok None);
  not ← (if truthy (logical "not")
         then Some <$> encode (logical "not")
         else Ok None);
  Ok (mkRawLogical and or not).

End logical_conditions.

Fixpoint getRawRuleSetCondition (condition : JsValue) : result RawRuleSetCondition :=
  match condition with
  (* typeof condition === "string" *)
  | JStr s => Ok (RawString s)
  (* condition instanceof RegExp *)
  | JRegExp r => Ok (RawRegexp (source r))
  (* Array.isArray(condition) *)
  | JArr elems => RawArray <$> array_map getRawRuleSetCondition elems
  (* condition instanceof Object && condition !== null *)
  | JObj _ get =>
      (λ l, RawLogical [l]) <$> logicalConditions getRawRuleSetCondition get
  | JUndefined | JNull | JBool _ | JNum _ => Throw (Error unreachable_message)
  end.

(** Reading a property of [undefined] or [null] throws. *)
Definition getRawRuleSetLogicalConditions (logical : JsValue)
  : result RawRuleSetLogicalConditions :=
  match logical with
  | JUndefined | JNull =>
      Throw (TypeError "Cannot read properties of undefined")
  | _ => logicalConditions getRawRuleSetCondition (get_prop logical)
  end.

(** [v ? getRawRuleSetCondition(v) : undefined] *)
Definition condition_field (v : JsValue) : result (option RawRuleSetCondition) :=
  if truthy v then Some <$> getRawRuleSetCondition v else Ok None.

(** ** Module rules *)

Module RuleSetRule.
Inductive t := mk {
  test : JsValue;
  include : JsValue;
  exclude : JsValue;
  resource : JsValue;
  resourceQuery : JsValue;
  sideEffects : JsValue;
  use : JsValue;
  type : JsValue;
  parser : JsValue;
  generator : JsValue;
  resolve : JsValue;
  issuer : JsValue;
  oneOf : option (list t)
}.
End RuleSetRule.

Module RawModuleRule.
Inductive t := mk {
  test : option RawRuleSetCondition;
  include : option RawRuleSetCondition;
  exclude : option RawRuleSetCondition;
  resource : option RawRuleSetCondition;
  resourceQuery : option RawRuleSetCondition;
  sideEffects : JsValue;
  use : JsValue;
  type : JsValue;
  parser : JsValue;
  generator : JsValue;
  resolve : JsValue;
  issuer : option RawRuleSetCondition;
  oneOf : option (list t)
}.
End RawModuleRule.

(** The context handed to the loader-chain encoder. *)
Record ComposeJsUseOptions := {
  compiler : JsValue;
  devtool : string;
  context : string
}.

Module ModuleOptionsNormalized.
Record t := mk {
  defaultRules : option (list RuleSetRule.t);
  rules : list RuleSetRule.t;
  parser : JsValue
}.
End ModuleOptionsNormalized.

Module RawModuleOptions.
Record t := mk {
  rules : list RawModuleRule.t;
  parser : JsValue
}.
End RawModuleOptions.

(** ** Guards *)

(** Modelled from the spec: [isNil] of ../util, which is not part of the
    sources at hand; a field is nil when it is absent ([undefined] or
    [null]), which an optional field renders as [None]. *)
Definition isNil {A} (x : option A) : bool :=
  match x with None => true | Some _ => false end.

(** [assert(value, message)] of Node's assert module; [message] is [None]
    when the call hands none, and the error then carries the message Node
    generates (see [generatedMessage]). *)
Definition assert (value : bool) (message : option string) : result unit :=
  if value then Ok () else Throw (AssertionError message).

(** [...xs] inside an array literal. *)
Definition spread {A} (xs : option (list A)) : result (list A) :=
  match xs with
  | Some l => Ok l
  | None => Throw (TypeError "undefined is not iterable")
  end.

Definition defaultRules_message : string :=
  "module.defaultRules should not be nil after defaults".

Section module.

(** The loader-chain encoder of ./adapter-rule-use, an external
    collaborator: any function from a [use] value and the context to a
    canonical chain, possibly throwing. *)
Variable createRawModuleRuleUses :
  JsValue → ComposeJsUseOptions → result JsValue.

Fixpoint getRawModuleRule (rule : RuleSetRule.t) (options : ComposeJsUseOptions)
  : result RawModuleRule.t :=
  test ← condition_field (RuleSetRule.test rule);
  include ← condition_field (RuleSetRule.include rule);
  exclude ← condition_field (RuleSetRule.exclude rule);
  resource ← condition_field (RuleSetRule.resource rule);
  resourceQuery ← condition_field (RuleSetRule.resourceQuery rule);
  use ← createRawModuleRuleUses (nullish_or (RuleSetRule.use rule) (JArr [])) options;
  issuer ← condition_field (RuleSetRule.issuer rule);
  oneOf ← match RuleSetRule.oneOf rule with
          | Some l => Some <$> array_map (λ i, getRawModuleRule i options) l
          | None => Ok None
          end;
  Ok {| RawModuleRule.test := test;
        RawModuleRule.include := include;
        RawModuleRule.exclude := exclude;
        RawModuleRule.resource := resource;
        RawModuleRule.resourceQuery := resourceQuery;
        RawModuleRule.sideEffects := RuleSetRule.sideEffects rule;
        RawModuleRule.use := use;
        RawModuleRule.type := RuleSetRule.type rule;
        RawModuleRule.parser := RuleSetRule.parser rule;
        RawModuleRule.generator := RuleSetRule.generator rule;
        RawModuleRule.resolve := RuleSetRule.resolve rule;
        RawModuleRule.issuer := issuer;
        RawModuleRule.oneOf := oneOf |}.

Definition getRawModule (module : ModuleOptionsNormalized.t)
  (options : ComposeJsUseOptions) : result RawModuleOptions.t :=
  _ ← assert (negb (isNil (ModuleOptionsNormalized.defaultRules module)))
        (Some defaultRules_message);
  defaults ← spread (ModuleOptionsNormalized.defaultRules module);
  rules ← array_map (λ i, getRawModuleRule i options)
            (defaults ++ ModuleOptionsNormalized.rules module);
  Ok {| RawModuleOptions.rules := rules;
        RawModuleOptions.parser := ModuleOptionsNormalized.parser module |}.

End module.

(** ** JavaScript objects used as maps *)

(** [Object.entries(o)] and [Object.keys(o)] *)
Definition Object_entries {A} (o : gmap string A) : list (string * A) :=
  map_to_list o.
Definition Object_keys {A} (o : gmap string A) : list string :=
  (map_to_list o).*1.

(** [Object.fromEntries(l)]: the entries are written in turn, a later entry
    overwrites an earlier one with the same key. *)
Definition Object_fromEntries {A} (l : list (string * A)) : gmap string A :=
  foldl (λ o kv, <[kv.1 := kv.2]> o) ∅ l.

(** [o[key]] followed by a property read: reading a property of [undefined]
    throws. *)
Definition index {A} (o : gmap string A) (key : string) : result A :=
  match o !! key with
  | Some v => Ok v
  | None => Throw (TypeError "Cannot read properties of undefined")
  end.

(** [o[key] = v] on an object created by an object literal: the key
    [__proto__] is the accessor of [Object.prototype], so assigning to it
    replaces the prototype of [o] (by [v], an object) and adds no property
    of [o]'s own; any other key is written as an own property. *)
Definition assign {A} (o : gmap string A) (key : string) (v : A) : gmap string A :=
  if String.eqb key "__proto__" then o else <[key := v]> o.

(** [for (const x of xs) body], the loop's variables threaded as [s]. *)
Fixpoint for_of {A S} (xs : list A) (body : A → S → result S) (s : S) : result S :=
  match xs with
  | [] => Ok s
  | x :: rest => s' ← body x s; for_of rest body s'
  end.

(** [const { ... } = v]: destructuring a nil value throws. *)
Definition destructure {A} (v : option A) : result A :=
  match v with
  | Some a => Ok a
  | None => Throw (TypeError "Cannot destructure property of undefined")
  end.

(** A value that is a boolean or a text, and [String(v)] on such an optional
    value. *)
Inductive BooleanOrString :=
| OfBoolean (b : bool)
| OfString (s : string).

Definition String_ (v : option BooleanOrString) : string :=
  match v with
  | None => "undefined"
  | Some (OfBoolean true) => "true"
  | Some (OfBoolean false) => "false"
  | Some (OfString s) => s
  end.

(** ** Optimization and split chunks *)

Module CacheGroup.
Record t := mk {
  test : option RegExp;
  name : option string;
  priority : option Z;
  minChunks : option Z;
  chunks : option string
}.
End CacheGroup.

Module RawCacheGroupOptions.
Record t := mk {
  test : option string;
  name : option string;
  priority : option Z;
  minChunks : option Z;
  chunks : option string
}.
End RawCacheGroupOptions.

Module OptimizationSplitChunksOptions.
Record t := mk {
  cacheGroups : option (gmap string CacheGroup.t);
  chunks : option string;
  maxAsyncRequests : option Z;
  maxInitialRequests : option Z;
  minChunks : option Z;
  minSize : option Z;
  enforceSizeThreshold : option Z;
  minRemainingSize : option Z
}.
End OptimizationSplitChunksOptions.

(** The binding declares every field of the raw split-chunks record
    optional. *)
Module RawSplitChunksOptions.
Record t := mk {
  cacheGroups : option (gmap string RawCacheGroupOptions.t);
  chunks : option string;
  maxAsyncRequests : option Z;
  maxInitialRequests : option Z;
  minChunks : option Z;
  minSize : option Z;
  enforceSizeThreshold : option Z;
  minRemainingSize : option Z
}.
End RawSplitChunksOptions.

Module Optimization.
Record t := mk {
  splitChunks : option OptimizationSplitChunksOptions.t;
  moduleIds : option string;
  removeAvailableModules : option bool;
  sideEffects : option BooleanOrString
}.
End Optimization.

Module RawOptimization.
Record t := mk {
  splitChunks : option RawSplitChunksOptions.t;
  moduleIds : option string;
  removeAvailableModules : option bool;
  sideEffects : string
}.
End RawOptimization.

(** The [normalizedGroup] built for each entry of [sc.cacheGroups]. *)
Definition normalizedGroup (group : CacheGroup.t) : RawCacheGroupOptions.t :=
  {| RawCacheGroupOptions.test :=
       match CacheGroup.test group with
       | Some r => Some (source r)
       | None => None
       end;
     RawCacheGroupOptions.name := CacheGroup.name group;
     RawCacheGroupOptions.priority := CacheGroup.priority group;
     RawCacheGroupOptions.minChunks := CacheGroup.minChunks group;
     RawCacheGroupOptions.chunks := CacheGroup.chunks group |}.

Definition getRawSplitChunksOptions (sc : OptimizationSplitChunksOptions.t)
  : RawSplitChunksOptions.t :=
  {| RawSplitChunksOptions.cacheGroups :=
       match OptimizationSplitChunksOptions.cacheGroups sc with
       | Some groups =>
           Some (Object_fromEntries
                   (map (λ '(key, group), (key, normalizedGroup group))
                      (Object_entries groups)))
       | None => Some ∅
       end;
     RawSplitChunksOptions.chunks := OptimizationSplitChunksOptions.chunks sc;
     RawSplitChunksOptions.maxAsyncRequests :=
       OptimizationSplitChunksOptions.maxAsyncRequests sc;
     RawSplitChunksOptions.maxInitialRequests :=
       OptimizationSplitChunksOptions.maxInitialRequests sc;
     RawSplitChunksOptions.minChunks := OptimizationSplitChunksOptions.minChunks sc;
     RawSplitChunksOptions.minSize := OptimizationSplitChunksOptions.minSize sc;
     RawSplitChunksOptions.enforceSizeThreshold :=
       OptimizationSplitChunksOptions.enforceSizeThreshold sc;
     RawSplitChunksOptions.minRemainingSize :=
       OptimizationSplitChunksOptions.minRemainingSize sc |}.

Definition optimization_message : string :=
  "optimization.moduleIds, optimization.removeAvailableModules, optimization.sideEffects should not be nil after defaults".

Definition getRawOptimization (optimization : Optimization.t)
  : result RawOptimization.t :=
  _ ← assert (negb (isNil (Optimization.moduleIds optimization)) &&
              negb (isNil (Optimization.removeAvailableModules optimization)) &&
              negb (isNil (Optimization.sideEffects optimization)))
        (Some optimization_message);
  Ok {| RawOptimization.splitChunks :=
          match Optimization.splitChunks optimization with
          | Some sc => Some (getRawSplitChunksOptions sc)
          | None => None
          end;
        RawOptimization.moduleIds := Optimization.moduleIds optimization;
        RawOptimization.removeAvailableModules :=
          Optimization.removeAvailableModules optimization;
        RawOptimization.sideEffects :=
          String_ (Optimization.sideEffects optimization) |}.

(** ** The section encoders *)

(** [runtime] of an entry: [false] or a chunk name. *)
Inductive EntryRuntime :=
| RuntimeFalse
| RuntimeName (name : string).

Module EntryDescription.
Record t := mk {
  import : option (list string);
  runtime : option EntryRuntime
}.
End EntryDescription.

Module RawEntryItem.
Record t := mk {
  import : option (list string);
  runtime : option string
}.
End RawEntryItem.

Definition getRawEntry (entry : gmap string EntryDescription.t)
  : result (gmap string RawEntryItem.t) :=
  for_of (Object_keys entry)
    (λ key raw,
       description ← index entry key;
       let runtime := EntryDescription.runtime description in
       Ok (assign raw key
             {| RawEntryItem.import := EntryDescription.import description;
                RawEntryItem.runtime :=
                  match runtime with
                  | Some RuntimeFalse => None
                  | Some (RuntimeName name) => Some name
                  | None => None
                  end |}))
    ∅.

Inductive Target :=
| TargetFalse
| TargetString (s : string)
| TargetArray (l : list string).

Definition getRawTarget (target : option Target) : list string :=
  match target with
  | None | Some TargetFalse => []
  | Some (TargetString s) => if String.eqb s "" then [] else [s]
  | Some (TargetArray l) => l
  end.

Module OutputNormalized.
Record t := mk {
  path : option string;
  publicPath : option string;
  assetModuleFilename : option string;
  filename : option string;
  chunkFilename : option string;
  cssFilename : option string;
  cssChunkFilename : option string;
  uniqueName : option string;
  library : JsValue;
  strictModuleErrorHandling : option bool
}.
End OutputNormalized.

Module RawOutput.
Record t := mk {
  path : option string;
  publicPath : option string;
  assetModuleFilename : option string;
  filename : option string;
  chunkFilename : option string;
  cssFilename : option string;
  cssChunkFilename : option string;
  uniqueName : option string;
  library : JsValue;
  strictModuleErrorHandling : option bool
}.
End RawOutput.

Definition output_message : string := "fields should not be nil after defaults".

Definition getRawOutput (output : OutputNormalized.t) : result RawOutput.t :=
  _ ← assert (negb (isNil (OutputNormalized.path output)) &&
              negb (isNil (OutputNormalized.publicPath output)) &&
              negb (isNil (OutputNormalized.assetModuleFilename output)) &&
              negb (isNil (OutputNormalized.filename output)) &&
              negb (isNil (OutputNormalized.chunkFilename output)) &&
              negb (isNil (OutputNormalized.cssFilename output)) &&
              negb (isNil (OutputNormalized.cssChunkFilename output)) &&
              negb (isNil (OutputNormalized.uniqueName output)) &&
              negb (isNil (OutputNormalized.strictModuleErrorHandling output)))
        (Some output_message);
  Ok {| RawOutput.path := OutputNormalized.path output;
        RawOutput.publicPath := OutputNormalized.publicPath output;
        RawOutput.assetModuleFilename := OutputNormalized.assetModuleFilename output;
        RawOutput.filename := OutputNormalized.filename output;
        RawOutput.chunkFilename := OutputNormalized.chunkFilename output;
        RawOutput.cssFilename := OutputNormalized.cssFilename output;
        RawOutput.cssChunkFilename := OutputNormalized.cssChunkFilename output;
        RawOutput.uniqueName := OutputNormalized.uniqueName output;
        RawOutput.library := OutputNormalized.library output;
        RawOutput.strictModuleErrorHandling :=
          OutputNormalized.strictModuleErrorHandling output |}.

Inductive Externals :=
| ExternalsString (name : string)
| ExternalsRecord (record : gmap string string).

Definition getRawExternals (externals : Externals) : gmap string string :=
  match externals with
  | ExternalsString name => {[ name := name ]}
  | ExternalsRecord record => record
  end.

Module SnapshotSection.
Record t := mk {
  timestamp : option bool;
  hash : option bool
}.
End SnapshotSection.

Module SnapshotOptions.
Record t := mk {
  resolve : option SnapshotSection.t;
  module : option SnapshotSection.t
}.
End SnapshotOptions.

Module RawSnapshotOptions.
Record t := mk {
  resolve : SnapshotSection.t;
  module : SnapshotSection.t
}.
End RawSnapshotOptions.

Definition getRawSnapshotOptions (snapshot : SnapshotOptions.t)
  : result RawSnapshotOptions.t :=
  let resolve := SnapshotOptions.resolve snapshot in
  let module := SnapshotOptions.module snapshot in
  _ ← assert (negb (isNil resolve) && negb (isNil module)) None;
  resolve' ← destructure resolve;
  let resolveTimestamp := SnapshotSection.timestamp resolve' in
  let resolveHash := SnapshotSection.hash resolve' in
  module' ← destructure module;
  let moduleTimestamp := SnapshotSection.timestamp module' in
  let moduleHash := SnapshotSection.hash module' in
  _ ← assert (negb (isNil resolveTimestamp) && negb (isNil resolveHash) &&
              negb (isNil moduleTimestamp) && negb (isNil moduleHash)) None;
  Ok {| RawSnapshotOptions.resolve :=
          {| SnapshotSection.timestamp := resolveTimestamp;
             SnapshotSection.hash := resolveHash |};
        RawSnapshotOptions.module :=
          {| SnapshotSection.timestamp := moduleTimestamp;
             SnapshotSection.hash := moduleHash |} |}.

Record Experiments := {
  lazyCompilation : option bool;
  incrementalRebuild : option bool
}.

Definition getRawExperiments (experiments : Experiments) : result Experiments :=
  let lazyCompilation := lazyCompilation experiments in
  let incrementalRebuild := incrementalRebuild experiments in
  _ ← assert (negb (isNil lazyCompilation) && negb (isNil incrementalRebuild)) None;
  Ok {| lazyCompilation := lazyCompilation;
        incrementalRebuild := incrementalRebuild |}.

Record Node := { __dirname : option BooleanOrString }.
Record RawNode := { dirname : string }.

Definition getRawNode (node : Node) : result RawNode :=
  _ ← assert (negb (isNil (__dirname node))) None;
  Ok {| dirname := String_ (__dirname node) |}.

(** ** What a failure says *)

(** Whether the text [field] occurs in [message]. *)
Definition mentions (field message : string) : bool :=
  match String.index 0 field message with
  | Some _ => true
  | None => false
  end.

Definition newline : string := String "010"%char EmptyString.

(** The message Node's assert writes when none is handed to it: it quotes
    the asserted call as the running code has it (the layout of a call that
    spans several lines apart), the names of the asserted variables
    included. *)
Definition generatedMessage (call : string) : string :=
  String.append "The expression evaluated to a falsy value:"
    (String.append newline
       (String.append newline
          (String.append "  " (String.append call newline)))).

(** The message an assertion error carries: the one handed to assert, and
    the generated one when none was. *)
Definition assertion_message (call : string) (message : option string) : string :=
  match message with
  | Some text => text
  | None => generatedMessage call
  end.

(** The asserted calls of the section encoders, from the source. *)
Definition snapshot_assertion : string :=
  "assert(!isNil(resolve) && !isNil(module))".
Definition snapshot_flags_assertion : string :=
  "assert(!isNil(resolveTimestamp) && !isNil(resolveHash) && !isNil(moduleTimestamp) && !isNil(moduleHash))".
Definition experiments_assertion : string :=
  "assert(!isNil(lazyCompilation) && !isNil(incrementalRebuild))".
Definition node_assertion : string :=
  "assert(!isNil(node.__dirname))".

(** The asserted [call] has failed in [r], with a message that names every
    one of [fields]. *)
Definition fails_naming {A} (call : string) (r : result A) (fields : list string)
  : Prop :=
  ∃ message, r = Throw (AssertionError message) ∧
             forallb (λ field, mentions field (assertion_message call message))
               fields = true.

(** ** The input types, as predicates on run-time values *)

Section condition_type.

Variable is_condition : JsValue → bool.

(** [and?: RuleSetCondition[]] *)
Definition is_optional_conditions (v : JsValue) : bool :=
  match v with
  | JUndefined => true
  | JArr l => forallb is_condition l
  | _ => false
  end.

(** [not?: RuleSetCondition] *)
Definition is_optional_condition (v : JsValue) : bool :=
  match v with
  | JUndefined => true
  | _ => is_condition v
  end.

End condition_type.

(** Modelled from the spec: the [RuleSetCondition] type of ./types, which is
    not part of the sources at hand. A condition is a literal text, a
    pattern, an ordered list of conditions, or a logical-combination object
    with optional [and], [or] (lists of conditions) and [not] (one
    condition). *)
Fixpoint is_RuleSetCondition (v : JsValue) : bool :=
  match v with
  | JStr _ | JRegExp _ => true
  | JArr l => forallb is_RuleSetCondition l
  | JObj PlainObject get =>
      is_optional_conditions is_RuleSetCondition (get "and") &&
      is_optional_conditions is_RuleSetCondition (get "or") &&
      is_optional_condition is_RuleSetCondition (get "not")
  | _ => false
  end.

(** Modelled from the spec: the [RuleSetLogicalConditions] type of ./types. *)
Definition is_RuleSetLogicalConditions (v : JsValue) : bool :=
  match v with
  | JObj PlainObject _ => is_RuleSetCondition v
  | _ => false
  end.

(** Modelled from the spec: a [RuleSetRule] of ./types has optional
    condition fields and an optional list of sub-rules, each a rule. *)
Fixpoint is_RuleSetRule (rule : RuleSetRule.t) : bool :=
  is_optional_condition is_RuleSetCondition (RuleSetRule.test rule) &&
  is_optional_condition is_RuleSetCondition (RuleSetRule.include rule) &&
  is_optional_condition is_RuleSetCondition (RuleSetRule.exclude rule) &&
  is_optional_condition is_RuleSetCondition (RuleSetRule.resource rule) &&
  is_optional_condition is_RuleSetCondition (RuleSetRule.resourceQuery rule) &&
  is_optional_condition is_RuleSetCondition (RuleSetRule.issuer rule) &&
  match RuleSetRule.oneOf rule with
  | Some l => forallb is_RuleSetRule l
  | None => true
  end.

(** A plain object, as opposed to a function (or a value that is no object
    at all). *)
Definition is_plain_object (v : JsValue) : bool :=
  match v with JObj PlainObject _ => true | _ => false end.

(** The four shapes of a condition: text, pattern, list, plain object. *)
Definition recognized_shape (v : JsValue) : bool :=
  typeof_string v || instanceof_RegExp v || Array_isArray v || is_plain_object v.

(** ** How deep the [oneOf] lists of a rule nest *)

Fixpoint depth (rule : RuleSetRule.t) : nat :=
  match RuleSetRule.oneOf rule with
  | Some l => S (list_max (map depth l))
  | None => 0%nat
  end.

Fixpoint raw_depth (rule : RawModuleRule.t) : nat :=
  match RawModuleRule.oneOf rule with
  | Some l => S (list_max (map raw_depth l))
  | None => 0%nat
  end.

(** ** What the encoders are expected to return *)

(** [e] encodes [l] element by element, in the same order. *)
Definition encoded_list (l : list JsValue) (e : list RawRuleSetCondition) : Prop :=
  Forall2 (λ x r, getRawRuleSetCondition x = Ok r) l e.

(** An optional list: absent stays absent, a list is encoded element-wise. *)
Definition encoded_optional_list (v : JsValue)
  (o : option (list RawRuleSetCondition)) : Prop :=
  match v with
  | JArr l => ∃ e, o = Some e ∧ encoded_list l e
  | _ => o = None
  end.

(** An optional condition behind a truthiness guard: a truthy value is
    encoded, anything else is left out. *)
Definition encoded_field (v : JsValue) (o : option RawRuleSetCondition) : Prop :=
  if truthy v
  then ∃ c, getRawRuleSetCondition v = Ok c ∧ o = Some c
  else o = None.

(** The [oneOf] of a compiled rule: absent when absent in the input,
    otherwise the sub-rules compiled one by one, in the same order. *)
Definition encoded_oneOf (compile : RuleSetRule.t → result RawModuleRule.t)
  (i : option (list RuleSetRule.t)) (o : option (list RawModuleRule.t)) : Prop :=
  match i with
  | None => o = None
  | Some l => ∃ e, o = Some e ∧ length e = length l ∧
                   Forall2 (λ x y, compile x = Ok y) l e
  end.

(** What one level of a compiled rule holds, field by field. *)
Definition compiled_fields
  (uses : JsValue → ComposeJsUseOptions → result JsValue)
  (options : ComposeJsUseOptions)
  (rule : RuleSetRule.t) (r : RawModuleRule.t) : Prop :=
  encoded_field (RuleSetRule.test rule) (RawModuleRule.test r) ∧
  encoded_field (RuleSetRule.include rule) (RawModuleRule.include r) ∧
  encoded_field (RuleSetRule.exclude rule) (RawModuleRule.exclude r) ∧
  encoded_field (RuleSetRule.resource rule) (RawModuleRule.resource r) ∧
  encoded_field (RuleSetRule.resourceQuery rule) (RawModuleRule.resourceQuery r) ∧
  encoded_field (RuleSetRule.issuer rule) (RawModuleRule.issuer r) ∧
  RawModuleRule.sideEffects r = RuleSetRule.sideEffects rule ∧
  RawModuleRule.type r = RuleSetRule.type rule ∧
  RawModuleRule.parser r = RuleSetRule.parser rule ∧
  RawModuleRule.generator r = RuleSetRule.generator rule ∧
  RawModuleRule.resolve r = RuleSetRule.resolve rule ∧
  uses (nullish_or (RuleSetRule.use rule) (JArr [])) options
    = Ok (RawModuleRule.use r).

(** ** Induction over values and over rules, through their nested lists *)

Section JsValue_induction.

Variable P : JsValue → Prop.
Hypothesis P_undefined : P JUndefined.
Hypothesis P_null : P JNull.
Hypothesis P_bool : ∀ b, P (JBool b).
Hypothesis P_num : ∀ n, P (JNum n).
Hypothesis P_str : ∀ s, P (JStr s).
Hypothesis P_regexp : ∀ r, P (JRegExp r).
Hypothesis P_arr : ∀ l, Forall P l → P (JArr l).
Hypothesis P_obj : ∀ cls get, (∀ key, P (get key)) → P (JObj cls get).

Fixpoint JsValue_nested_ind (v : JsValue) : P v :=
  match v with
  | JUndefined => P_undefined
  | JNull => P_null
  | JBool b => P_bool b
  | JNum n => P_num n
  | JStr s => P_str s
  | JRegExp r => P_regexp r
  | JArr l =>
      P_arr l ((fix all (l : list JsValue) : Forall P l :=
                  match l with
                  | [] => @List.Forall_nil _ P
                  | x :: rest => @List.Forall_cons _ P x rest (JsValue_nested_ind x) (all rest)
                  end) l)
  | JObj cls get => P_obj cls get (λ key, JsValue_nested_ind (get key))
  end.

End JsValue_induction.

Section RuleSetRule_induction.

Variable P : RuleSetRule.t → Prop.
Hypothesis P_leaf : ∀ rule, RuleSetRule.oneOf rule = None → P rule.
Hypothesis P_oneOf : ∀ rule l,
  RuleSetRule.oneOf rule = Some l → Forall P l → P rule.

Fixpoint RuleSetRule_nested_ind (rule : RuleSetRule.t) : P rule :=
  match rule with
  | RuleSetRule.mk t i e r q s u ty p g rs iss None =>
      P_leaf (RuleSetRule.mk t i e r q s u ty p g rs iss None) eq_refl
  | RuleSetRule.mk t i e r q s u ty p g rs iss (Some l) =>
      P_oneOf (RuleSetRule.mk t i e r q s u ty p g rs iss (Some l)) l eq_refl
        ((fix all (l : list RuleSetRule.t) : Forall P l :=
            match l with
            | [] => @List.Forall_nil _ P
            | x :: rest =>
                @List.Forall_cons _ P x rest (RuleSetRule_nested_ind x) (all rest)
            end) l)
  end.

End RuleSetRule_induction.

(** ** Sample inputs *)

Definition sample_condition : JsValue :=
  JArr [JRegExp (mkRegExp "\.tsx?$" "i");
        object [("or", JArr [JStr "src"; JRegExp (mkRegExp "lib" "")])]].


Definition sample_options : ComposeJsUseOptions :=
  {| compiler := JUndefined; devtool := "source-map"; context := "/app" |}.

(** A loader-chain encoder standing in for the collaborator: it hands the
    [use] value back. *)
Definition sample_uses (use : JsValue) (options : ComposeJsUseOptions)
  : result JsValue := Ok use.

(** A rule with the given [test] and sub-rules, and nothing else. *)
Definition sample_rule (test : JsValue) (oneOf : option (list RuleSetRule.t))
  : RuleSetRule.t :=
  {| RuleSetRule.test := test;
     RuleSetRule.include := JUndefined;
     RuleSetRule.exclude := JUndefined;
     RuleSetRule.resource := JUndefined;
     RuleSetRule.resourceQuery := JUndefined;
     RuleSetRule.sideEffects := JUndefined;
     RuleSetRule.use := JUndefined;
     RuleSetRule.type := JStr "javascript/auto";
     RuleSetRule.parser := JUndefined;
     RuleSetRule.generator := JUndefined;
     RuleSetRule.resolve := JUndefined;
     RuleSetRule.issuer := JUndefined;
     RuleSetRule.oneOf := oneOf |}.

Definition sample_raw_rule (test : option RawRuleSetCondition)
  (oneOf : option (list RawModuleRule.t)) : RawModuleRule.t :=
  {| RawModuleRule.test := test;
     RawModuleRule.include := None;
     RawModuleRule.exclude := None;
     RawModuleRule.resource := None;
     RawModuleRule.resourceQuery := None;
     RawModuleRule.sideEffects := JUndefined;
     RawModuleRule.use := JArr [];
     RawModuleRule.type := JStr "javascript/auto";
     RawModuleRule.parser := JUndefined;
     RawModuleRule.generator := JUndefined;
     RawModuleRule.resolve := JUndefined;
     RawModuleRule.issuer := None;
     RawModuleRule.oneOf := oneOf |}.

(** A rule with sub-rules two levels deep. *)
Definition sample_nested_rule : RuleSetRule.t :=
  sample_rule (JRegExp (mkRegExp "\.css$" ""))
    (Some [sample_rule (JStr "a.css") None;
           sample_rule JUndefined (Some [sample_rule (JStr "") None])]).

(** Two default rules and one user rule, the user rule equal to the first
    default rule. *)
Definition sample_module : ModuleOptionsNormalized.t :=
  {| ModuleOptionsNormalized.defaultRules :=
       Some [sample_rule (JStr "d1") None; sample_rule (JStr "d2") None];
     ModuleOptionsNormalized.rules := [sample_rule (JStr "d1") None];
     ModuleOptionsNormalized.parser := JUndefined |}.

Definition sample_cacheGroups : gmap string CacheGroup.t :=
  {[ "vendors" :=
       {| CacheGroup.test := Some (mkRegExp "node_modules" "i");
          CacheGroup.name := Some "vendors";
          CacheGroup.priority := Some 10;
          CacheGroup.minChunks := Some 1;
          CacheGroup.chunks := Some "all" |} ]}.

Definition sample_splitChunks (cacheGroups : option (gmap string CacheGroup.t))
  : OptimizationSplitChunksOptions.t :=
  {| OptimizationSplitChunksOptions.cacheGroups := cacheGroups;
     OptimizationSplitChunksOptions.chunks := Some "async";
     OptimizationSplitChunksOptions.maxAsyncRequests := None;
     OptimizationSplitChunksOptions.maxInitialRequests := None;
     OptimizationSplitChunksOptions.minChunks := Some 1;
     OptimizationSplitChunksOptions.minSize := None;
     OptimizationSplitChunksOptions.enforceSizeThreshold := None;
     OptimizationSplitChunksOptions.minRemainingSize := None |}.

Definition sample_optimization
  (splitChunks : option OptimizationSplitChunksOptions.t) : Optimization.t :=
  {| Optimization.splitChunks := splitChunks;
     Optimization.moduleIds := Some "named";
     Optimization.removeAvailableModules := Some true;
     Optimization.sideEffects := Some (OfBoolean true) |}.

Definition sample_output (path : option string) : OutputNormalized.t :=
  {| OutputNormalized.path := path;
     OutputNormalized.publicPath := Some "/";
     OutputNormalized.assetModuleFilename := Some "[hash][ext][query]";
     OutputNormalized.filename := Some "[name].js";
     OutputNormalized.chunkFilename := Some "[name].js";
     OutputNormalized.cssFilename := Some "[name].css";
     OutputNormalized.cssChunkFilename := Some "[name].css";
     OutputNormalized.uniqueName := Some "app";
     OutputNormalized.library := JUndefined;
     OutputNormalized.strictModuleErrorHandling := Some false |}.

(** The fields [getRawOutput] requires. *)
Definition output_required : list string :=
  ["path"; "publicPath"; "assetModuleFilename"; "filename"; "chunkFilename";
   "cssFilename"; "cssChunkFilename"; "uniqueName"; "strictModuleErrorHandling"].

(** A guarded encoder: it returns exactly when nothing is [missing], and
    otherwise fails with an assertion error carrying [message]. *)
Definition guarded {A} (r : result A) (message : option string)
  (missing : Prop) : Prop :=
  match r with
  | Ok _ => ¬ missing
  | Throw e => e = AssertionError message ∧ missing
  end.

Definition sample_entry : gmap string EntryDescription.t :=
  {[ "main" := {| EntryDescription.import := None;
                  EntryDescription.runtime := None |} ]}.

(** ** The options translator *)

(** [devtool] after defaulting: [false] or a source-map mode. *)
Inductive Devtool :=
| DevtoolFalse
| DevtoolMode (mode : string).

Record DevServer := { hot : option bool }.

(** What [normalizeStatsPreset] returns, as far as the adapter reads it. *)
Record StatsOptions := { colors : option bool }.

Module RspackOptionsNormalized.
Record t := mk {
  entry : gmap string EntryDescription.t;
  mode : option string;
  target : option Target;
  context : option string;
  output : OutputNormalized.t;
  resolve : JsValue;
  module : ModuleOptionsNormalized.t;
  externals : option Externals;
  externalsType : option string;
  devtool : option Devtool;
  optimization : Optimization.t;
  stats : JsValue;
  devServer : option DevServer;
  snapshot : SnapshotOptions.t;
  cache : option bool;
  experiments : Experiments;
  node : Node;
  builtins : JsValue
}.
End RspackOptionsNormalized.

Module RawCacheOptions.
Record t := mk {
  type : string;
  maxGenerations : Z;
  maxAge : Z;
  profile : bool;
  buildDependencies : list string;
  cacheDirectory : string;
  cacheLocation : string;
  name : string;
  version : string
}.
End RawCacheOptions.

Module RawOptions.
Record t := mk {
  entry : gmap string RawEntryItem.t;
  mode : option string;
  target : list string;
  context : string;
  output : RawOutput.t;
  resolve : JsValue;
  module : RawModuleOptions.t;
  externals : gmap string string;
  externalsType : string;
  devtool : string;
  optimization : RawOptimization.t;
  stats_colors : bool;      (* [stats.colors] *)
  devServer_hot : bool;     (* [devServer.hot] *)
  snapshot : RawSnapshotOptions.t;
  cache : RawCacheOptions.t;
  experiments : Experiments;
  node : RawNode;
  builtins : JsValue
}.
End RawOptions.

Definition options_message : string :=
  "context, devtool, cache should not be nil after defaults".

(** [options.externals ? getRawExternals(options.externals) : {}]: an absent
    value and the empty text are falsy, a record is an object and truthy. *)
Definition externals_or_empty (externals : option Externals) : gmap string string :=
  match externals with
  | None => ∅
  | Some (ExternalsString name) =>
      if String.eqb name "" then ∅ else getRawExternals (ExternalsString name)
  | Some (ExternalsRecord record) => getRawExternals (ExternalsRecord record)
  end.

(** [x ?? d] on an optional field. *)
Definition or_default {A} (x : option A) (d : A) : A :=
  match x with Some a => a | None => d end.

(** [options.devServer?.hot] *)
Definition devServer_hot (devServer : option DevServer) : option bool :=
  match devServer with
  | Some d => hot d
  | None => None
  end.

(** [options.devtool === false ? "" : options.devtool] *)
Definition devtool_text (devtool : Devtool) : string :=
  match devtool with
  | DevtoolFalse => ""
  | DevtoolMode mode => mode
  end.

(** The fixed cache descriptor. *)
Definition getRawCache (cache : bool) : RawCacheOptions.t :=
  {| RawCacheOptions.type := if cache then "memory" else "disable";
     RawCacheOptions.maxGenerations := 0;
     RawCacheOptions.maxAge := 0;
     RawCacheOptions.profile := false;
     RawCacheOptions.buildDependencies := [];
     RawCacheOptions.cacheDirectory := "";
     RawCacheOptions.cacheLocation := "";
     RawCacheOptions.name := "";
     RawCacheOptions.version := "" |}.

Section options.

Variable createRawModuleRuleUses :
  JsValue → ComposeJsUseOptions → result JsValue.

(** [normalizeStatsPreset] of ../stats, an external collaborator: any
    function from the [stats] value to the normalized options, possibly
    throwing. *)
Variable normalizeStatsPreset : JsValue → result StatsOptions.

(** The leading [assert] holds exactly when [context], [devtool] and [cache]
    are all there; the three values are then read as such. *)
Definition getRawOptions (options : RspackOptionsNormalized.t) (compiler : JsValue)
  : result RawOptions.t :=
  match RspackOptionsNormalized.context options,
        RspackOptionsNormalized.devtool options,
        RspackOptionsNormalized.cache options with
  | Some context, Some options_devtool, Some cache =>
      let devtool := devtool_text options_devtool in
      entry ← getRawEntry (RspackOptionsNormalized.entry options);
      output ← getRawOutput (RspackOptionsNormalized.output options);
      module ← getRawModule createRawModuleRuleUses
                 (RspackOptionsNormalized.module options)
                 {| compiler := compiler; devtool := devtool; context := context |};
      optimization ← getRawOptimization (RspackOptionsNormalized.optimization options);
      stats ← normalizeStatsPreset (RspackOptionsNormalized.stats options);
      snapshot ← getRawSnapshotOptions (RspackOptionsNormalized.snapshot options);
      experiments ← getRawExperiments (RspackOptionsNormalized.experiments options);
      node ← getRawNode (RspackOptionsNormalized.node options);
      Ok {| RawOptions.entry := entry;
            RawOptions.mode := RspackOptionsNormalized.mode options;
            RawOptions.target := getRawTarget (RspackOptionsNormalized.target options);
            RawOptions.context := context;
            RawOptions.output := output;
            RawOptions.resolve := RspackOptionsNormalized.resolve options;
            RawOptions.module := module;
            RawOptions.externals :=
              externals_or_empty (RspackOptionsNormalized.externals options);
            RawOptions.externalsType :=
              or_default (RspackOptionsNormalized.externalsType options) "";
            RawOptions.devtool := devtool;
            RawOptions.optimization := optimization;
            RawOptions.stats_colors := or_default (colors stats) false;
            RawOptions.devServer_hot :=
              or_default (devServer_hot (RspackOptionsNormalized.devServer options))
                false;
            RawOptions.snapshot := snapshot;
            RawOptions.cache := getRawCache cache;
            RawOptions.experiments := experiments;
            RawOptions.node := node;
            RawOptions.builtins := RspackOptionsNormalized.builtins options |}
  | _, _, _ => Throw (AssertionError (Some options_message))
  end.

End options.

(** ** Canonical conditions *)

(** The form of the conditions the encoder produces: a logical variant holds
    exactly one logical record, and a [not] child is never the string variant
    of the empty text. *)
Fixpoint canonical (r : RawRuleSetCondition) : bool :=
  match r with
  | RawString _ | RawRegexp _ => true
  | RawArray e => forallb canonical e
  | RawLogical [l] => canonical_logical l
  | RawLogical _ => false
  end
with canonical_logical (l : RawRuleSetLogicalConditions) : bool :=
  match l with
  | mkRawLogical a o n =>
      match a with Some e => forallb canonical e | None => true end &&
      match o with Some e => forallb canonical e | None => true end &&
      match n with
      | Some (RawString s) => negb (String.eqb s "")
      | Some c => canonical c
      | None => true
      end
  end.

(** The exception a result stands for, if any. *)
Definition error_of {A} (r : result A) : option Exception :=
  match r with Ok _ => None | Throw e => Some e end.

(** The first exception of a sequence of steps. *)
Fixpoint first_error (steps : list (option Exception)) : option Exception :=
  match steps with
  | [] => None
  | Some e :: _ => Some e
  | None :: rest => first_error rest
  end.

(** A rule with its [use] or its [oneOf] replaced. *)
Definition with_use (rule : RuleSetRule.t) (use : JsValue) : RuleSetRule.t :=
  match rule with
  | RuleSetRule.mk t i e r q s _ ty p g rs iss o =>
      RuleSetRule.mk t i e r q s use ty p g rs iss o
  end.

Definition with_oneOf (rule : RuleSetRule.t) (oneOf : option (list RuleSetRule.t))
  : RuleSetRule.t :=
  match rule with
  | RuleSetRule.mk t i e r q s u ty p g rs iss _ =>
      RuleSetRule.mk t i e r q s u ty p g rs iss oneOf
  end.

(** Whether a value has a [map] method: arrays have the one of
    [Array.prototype]; an object has one when its [map] property holds a
    function; texts, numbers, booleans and patterns have none. *)
Definition has_map_method (v : JsValue) : bool :=
  match v with
  | JArr _ => true
  | JObj _ get =>
      match get "map" with
      | JObj FunctionObject _ => true
      | _ => false
      end
  | _ => false
  end.

(** The condition of the input type that stands for an encodable value: the
    same texts and patterns, lists element by element, and for an object
    the plain object holding what the encoder reads of it, that is, [and]
    and [or] when they are lists and [not] when it is truthy. *)
Fixpoint normalize (v : JsValue) : JsValue :=
  match v with
  | JStr s => JStr s
  | JRegExp r => JRegExp r
  | JArr l => JArr (map normalize l)
  | JObj _ get =>
      JObj PlainObject
        (λ key,
           if String.eqb key "and"
           then match get "and" with
                | JArr l => JArr (map normalize l)
                | _ => JUndefined
                end
           else if String.eqb key "or"
           then match get "or" with
                | JArr l => JArr (map normalize l)
                | _ => JUndefined
                end
           else if String.eqb key "not"
           then if truthy (get "not") then normalize (get "not") else JUndefined
           else JUndefined)
  | JUndefined | JNull | JBool _ | JNum _ => JUndefined
  end.

(** A rule with its six condition fields replaced. *)
Definition with_conditions (rule : RuleSetRule.t)
  (test include exclude resource resourceQuery issuer : JsValue) : RuleSetRule.t :=
  match rule with
  | RuleSetRule.mk _ _ _ _ _ s u ty p g rs _ o =>
      RuleSetRule.mk test include exclude resource resourceQuery s u ty p g rs
        issuer o
  end.

Definition sample_snapshot : SnapshotOptions.t :=
  {| SnapshotOptions.resolve :=
       Some {| SnapshotSection.timestamp := Some true;
               SnapshotSection.hash := Some false |};
     SnapshotOptions.module :=
       Some {| SnapshotSection.timestamp := Some true;
               SnapshotSection.hash := Some true |} |}.

(** A stand-in for [normalizeStatsPreset]: no colors setting. *)
Definition sample_stats (stats : JsValue) : result StatsOptions :=
  Ok {| colors := None |}.

(** A complete configuration, but for the three fields given. *)
Definition sample_config (context : option string) (devtool : option Devtool)
  (output : OutputNormalized.t) : RspackOptionsNormalized.t :=
  {| RspackOptionsNormalized.entry := sample_entry;
     RspackOptionsNormalized.mode := Some "development";
     RspackOptionsNormalized.target := Some (TargetString "web");
     RspackOptionsNormalized.context := context;
     RspackOptionsNormalized.output := output;
     RspackOptionsNormalized.resolve := JUndefined;
     RspackOptionsNormalized.module := sample_module;
     RspackOptionsNormalized.externals := Some (ExternalsString "");
     RspackOptionsNormalized.externalsType := None;
     RspackOptionsNormalized.devtool := devtool;
     RspackOptionsNormalized.optimization := sample_optimization None;
     RspackOptionsNormalized.stats := JUndefined;
     RspackOptionsNormalized.devServer := None;
     RspackOptionsNormalized.snapshot := sample_snapshot;
     RspackOptionsNormalized.cache := Some true;
     RspackOptionsNormalized.experiments :=
       {| lazyCompilation := Some false; incrementalRebuild := Some true |};
     RspackOptionsNormalized.node := {| __dirname := Some (OfString "mock") |};
     RspackOptionsNormalized.builtins := JUndefined |}.
(** * Properties *)

(** ** The result monad and [array_map] *)

Lemma bind_Ok {A B} (f : A → result B) (m : result A) (b : B) :
  m ≫= f = Ok b ↔ ∃ a, m = Ok a ∧ f a = Ok b.
Proof.
  destruct m as [a|e]; simpl; split.
  - intros H. exists a. split; [reflexivity | exact H].
  - intros (a' & Ha & H). injection Ha as ->. exact H.
  - discriminate.
  - intros (a' & Ha & _). discriminate.
Qed.

Lemma fmap_Ok {A B} (f : A → B) (m : result A) (b : B) :
  f <$> m = Ok b ↔ ∃ a, m = Ok a ∧ b = f a.
Proof.
  destruct m as [a|e]; simpl; split.
  - intros [= <-]. exists a. split; reflexivity.
  - intros (a' & [= ->] & ->). reflexivity.
  - discriminate.
  - intros (a' & Ha & _). discriminate.
Qed.

Lemma array_map_Ok {A B} (f : A → result B) (l : list A) (e : list B) :
  array_map f l = Ok e ↔ Forall2 (λ x y, f x = Ok y) l e.
Proof.
  revert e. induction l as [|x rest IH]; intros e; simpl.
  - split.
    + intros [= <-]. constructor.
    + intros H. inversion H. reflexivity.
  - destruct (f x) as [y|err] eqn:Hx.
    + destruct (array_map f rest) as [ys|err] eqn:Hrest.
      * split.
        -- intros [= <-]. constructor; [exact Hx | apply IH; reflexivity].
        -- intros H. inversion H as [|? y' ? ys' Hy Hys]; subst.
           apply IH in Hys. congruence.
      * split; [discriminate |].
        intros H. inversion H as [|? y' ? ys' Hy Hys]; subst.
        apply IH in Hys. discriminate.
    + split; [discriminate |].
      intros H. inversion H; subst. congruence.
Qed.

Lemma array_map_total {A B} (f : A → result B) (l : list A) :
  Forall (λ x, ∃ y, f x = Ok y) l → ∃ e, array_map f l = Ok e.
Proof.
  induction 1 as [|x rest [y Hy] _ [ys Hys]]; simpl.
  - exists []. reflexivity.
  - rewrite Hy, Hys. exists (y :: ys). reflexivity.
Qed.

Lemma array_map_app {A B} (f : A → result B) (l1 l2 : list A) (e1 e2 : list B) :
  array_map f l1 = Ok e1 → array_map f l2 = Ok e2 →
  array_map f (l1 ++ l2) = Ok (e1 ++ e2).
Proof.
  rewrite !array_map_Ok. apply Forall2_app.
Qed.

Lemma array_map_length {A B} (f : A → result B) (l : list A) (e : list B) :
  array_map f l = Ok e → length e = length l.
Proof.
  rewrite array_map_Ok. intros H. symmetry. exact (Forall2_length _ _ _ H).
Qed.

(** ** The condition encoder *)

Lemma getRawRuleSetCondition_object cls get :
  getRawRuleSetCondition (JObj cls get) =
  (λ l, RawLogical [l]) <$> getRawRuleSetLogicalConditions (JObj cls get).
Proof. reflexivity. Qed.

(** The guard in front of [and] and [or]. *)
Lemma optional_conditions_Ok (v : JsValue) :
  (is_RuleSetCondition v = true → ∃ r, getRawRuleSetCondition v = Ok r) →
  is_optional_conditions is_RuleSetCondition v = true →
  ∃ o, (if truthy v then Some <$> call_map v getRawRuleSetCondition else Ok None)
       = Ok o ∧ encoded_optional_list v o.
Proof.
  intros IH Hty. destruct v; simpl in *; try discriminate.
  - exists None. split; reflexivity.
  - destruct (IH Hty) as [r Hr]. apply fmap_Ok in Hr as (e & He & _).
    rewrite He. exists (Some e). split; [reflexivity |].
    exists e. split; [reflexivity |]. apply array_map_Ok. exact He.
Qed.

(** The guard in front of [not] and of the condition fields of a rule. *)
Lemma optional_condition_Ok (v : JsValue) :
  (is_RuleSetCondition v = true → ∃ r, getRawRuleSetCondition v = Ok r) →
  is_optional_condition is_RuleSetCondition v = true →
  ∃ o, (if truthy v then Some <$> getRawRuleSetCondition v else Ok None) = Ok o
       ∧ encoded_field v o.
Proof.
  intros IH Hty. unfold encoded_field.
  destruct (truthy v) eqn:Htruthy.
  - assert (Hc : is_RuleSetCondition v = true)
      by (destruct v; simpl in *; try discriminate; exact Hty).
    destruct (IH Hc) as [r Hr]. rewrite Hr. exists (Some r).
    split; [reflexivity |]. exists r. split; reflexivity.
  - exists None. split; reflexivity.
Qed.

Lemma logicalConditions_typed (get : string → JsValue) :
  (∀ key, is_RuleSetCondition (get key) = true →
          ∃ r, getRawRuleSetCondition (get key) = Ok r) →
  is_optional_conditions is_RuleSetCondition (get "and") = true →
  is_optional_conditions is_RuleSetCondition (get "or") = true →
  is_optional_condition is_RuleSetCondition (get "not") = true →
  ∃ r, logicalConditions getRawRuleSetCondition get = Ok r ∧
       encoded_optional_list (get "and") (raw_and r) ∧
       encoded_optional_list (get "or") (raw_or r) ∧
       encoded_field (get "not") (raw_not r).
Proof.
  intros IH Hand Hor Hnot.
  destruct (optional_conditions_Ok _ (IH "and") Hand) as (a & Ha & Hea).
  destruct (optional_conditions_Ok _ (IH "or") Hor) as (o & Ho & Heo).
  destruct (optional_condition_Ok _ (IH "not") Hnot) as (n & Hn & Hen).
  exists (mkRawLogical a o n). unfold logicalConditions.
  rewrite Ha; simpl. rewrite Ho; simpl. rewrite Hn; simpl.
  repeat split; assumption.
Qed.

(** On a value of the input type the encoder returns. *)
Lemma getRawRuleSetCondition_total (v : JsValue) :
  is_RuleSetCondition v = true → ∃ r, getRawRuleSetCondition v = Ok r.
Proof.
  induction v as [| | | | s | r | l IH | cls get IH] using JsValue_nested_ind;
    simpl; try discriminate.
  - intros _. eexists; reflexivity.
  - intros _. eexists; reflexivity.
  - intros Hty.
    destruct (array_map_total getRawRuleSetCondition l) as [e He].
    + rewrite forallb_forall in Hty. rewrite Forall_forall in IH |- *.
      intros x Hx. apply IH; [exact Hx |]. apply Hty.
      apply list_elem_of_In. exact Hx.
    + rewrite He. eexists; reflexivity.
  - destruct cls; [| discriminate]. intros Hty.
    apply andb_prop in Hty as [Hty Hnot]. apply andb_prop in Hty as [Hand Hor].
    destruct (logicalConditions_typed get IH Hand Hor Hnot) as (r & Hr & _).
    rewrite Hr. eexists; reflexivity.
Qed.

(** C1. On every condition of the input type the encoder returns the variant
    of the condition's shape: a text gives the string variant, a pattern the
    regexp variant carrying the pattern's source and nothing of its flags, an
    ordered list the array variant of the element-wise encodings in the same
    order, and a logical-combination object the logical variant whose
    payload is the one-element list holding the encoded logical object. *)
Theorem getRawRuleSetCondition_shape (condition : JsValue) :
  is_RuleSetCondition condition = true →
  match condition with
  | JStr s => getRawRuleSetCondition condition = Ok (RawString s)
  | JRegExp r => getRawRuleSetCondition condition = Ok (RawRegexp (source r))
  | JArr l =>
      ∃ e, getRawRuleSetCondition condition = Ok (RawArray e) ∧
           length e = length l ∧ encoded_list l e
  | JObj _ _ =>
      ∃ logical, getRawRuleSetLogicalConditions condition = Ok logical ∧
                 getRawRuleSetCondition condition = Ok (RawLogical [logical])
  | JUndefined | JNull | JBool _ | JNum _ => False
  end.
Proof.
  intros Hty. destruct (getRawRuleSetCondition_total condition Hty) as [r Hr].
  destruct condition as [| | | | s | p | l | cls get]; simpl in Hty;
    try discriminate; try reflexivity.
  - simpl in Hr. apply fmap_Ok in Hr as (e & He & ->).
    exists e. split; [simpl; rewrite He; reflexivity |].
    split; [exact (array_map_length _ _ _ He) | apply array_map_Ok; exact He].
  - rewrite getRawRuleSetCondition_object in Hr |- *.
    apply fmap_Ok in Hr as (logical & Hl & ->).
    exists logical. split; [exact Hl | rewrite Hl; reflexivity].
Qed.

Lemma getRawRuleSetCondition_shape_witness :
  ∃ e, getRawRuleSetCondition sample_condition = Ok (RawArray e) ∧
       length e = 2%nat ∧
       encoded_list
         [JRegExp (mkRegExp "\.tsx?$" "i");
          object [("or", JArr [JStr "src"; JRegExp (mkRegExp "lib" "")])]] e.
Proof.
  apply (getRawRuleSetCondition_shape sample_condition). reflexivity.
Defined.

(** C4, as stated, fails: a function is none of the four shapes, yet the
    encoder returns a logical variant for it instead of failing. *)
Lemma unsupported_shape_counterexample :
  recognized_shape function = false ∧
  getRawRuleSetCondition function = Ok (RawLogical [mkRawLogical None None None]) ∧
  ¬ ∃ e, getRawRuleSetCondition function = Throw e.
Proof.
  split; [reflexivity |]. split; [reflexivity |].
  intros [e He]. discriminate He.
Qed.

(** C4, amended. A condition value that is not a text and not an instance of
    Object ([undefined], [null], a boolean, a number) makes the encoder fail
    with its unsupported-shape error; no encoding is returned. *)
Theorem getRawRuleSetCondition_unsupported (condition : JsValue) :
  typeof_string condition = false →
  instanceof_Object condition = false →
  getRawRuleSetCondition condition = Throw (Error unreachable_message) ∧
  ¬ ∃ r, getRawRuleSetCondition condition = Ok r.
Proof.
  intros Hstring Hobject.
  assert (H : getRawRuleSetCondition condition = Throw (Error unreachable_message))
    by (destruct condition; simpl in *; try discriminate; reflexivity).
  split; [exact H |]. intros [r Hr]. congruence.
Qed.

Lemma getRawRuleSetCondition_unsupported_witness :
  getRawRuleSetCondition JNull = Throw (Error unreachable_message) ∧
  ¬ ∃ r, getRawRuleSetCondition JNull = Ok r.
Proof.
  apply (getRawRuleSetCondition_unsupported JNull); reflexivity.
Defined.

(** ** The logical encoder *)

(** C5, as stated, fails: a logical object whose [not] child is the empty
    text has the key, and the child encodes to a string variant, yet the
    output has no [not]. *)
Lemma logical_not_counterexample :
  is_RuleSetLogicalConditions (object [("not", JStr "")]) = true ∧
  get_prop (object [("not", JStr "")]) "not" = JStr "" ∧
  getRawRuleSetCondition (JStr "") = Ok (RawString "") ∧
  getRawRuleSetLogicalConditions (object [("not", JStr "")])
    = Ok (mkRawLogical None None None).
Proof. repeat split. Qed.

(** On a logical object of the input type the logical encoder returns, and
    each key of the result is accounted for. *)
Lemma getRawRuleSetLogicalConditions_keys_total (logical : JsValue) :
  is_RuleSetLogicalConditions logical = true →
  ∃ r, getRawRuleSetLogicalConditions logical = Ok r ∧
       encoded_optional_list (get_prop logical "and") (raw_and r) ∧
       encoded_optional_list (get_prop logical "or") (raw_or r) ∧
       encoded_field (get_prop logical "not") (raw_not r).
Proof.
  destruct logical as [| | | | | | | cls get]; simpl; try discriminate.
  destruct cls; [| discriminate]. intros Hty.
  apply andb_prop in Hty as [Hty Hnot]. apply andb_prop in Hty as [Hand Hor].
  apply logicalConditions_typed; try assumption.
  intros key. apply getRawRuleSetCondition_total.
Qed.

(** C5, amended. On every logical-combination object the logical encoder
    returns a record of the three optional keys: [and] and [or] are absent
    when absent in the input and otherwise the element-wise encodings in the
    same order; [not] is the encoding of the child when the child is truthy
    and absent otherwise, that is, when the key is absent or the child is the
    empty text. *)
Theorem getRawRuleSetLogicalConditions_keys (logical : JsValue) :
  is_RuleSetLogicalConditions logical = true →
  ∃ r, getRawRuleSetLogicalConditions logical = Ok r ∧
       encoded_optional_list (get_prop logical "and") (raw_and r) ∧
       encoded_optional_list (get_prop logical "or") (raw_or r) ∧
       encoded_field (get_prop logical "not") (raw_not r).
Proof. exact (getRawRuleSetLogicalConditions_keys_total logical). Qed.

Lemma getRawRuleSetLogicalConditions_keys_witness :
  ∃ r, getRawRuleSetLogicalConditions (object [("or", JArr [JStr "a"; JStr "b"])])
         = Ok r ∧
       raw_and r = None ∧
       (∃ e, raw_or r = Some e ∧ encoded_list [JStr "a"; JStr "b"] e) ∧
       raw_not r = None.
Proof.
  apply (getRawRuleSetLogicalConditions_keys
           (object [("or", JArr [JStr "a"; JStr "b"])])).
  reflexivity.
Defined.

(** ** The module-rule compiler *)

Lemma condition_field_Ok (v : JsValue) (o : option RawRuleSetCondition) :
  condition_field v = Ok o → encoded_field v o.
Proof.
  unfold condition_field, encoded_field. destruct (truthy v).
  - intros H. apply fmap_Ok in H as (c & Hc & ->). exists c. split; [exact Hc | reflexivity].
  - intros [= <-]. reflexivity.
Qed.

Lemma condition_field_total (v : JsValue) :
  is_optional_condition is_RuleSetCondition v = true →
  ∃ o, condition_field v = Ok o.
Proof.
  intros Hty.
  destruct (optional_condition_Ok v (getRawRuleSetCondition_total v) Hty)
    as (o & Ho & _).
  exists o. exact Ho.
Qed.

Section module_rules.

Variable uses : JsValue → ComposeJsUseOptions → result JsValue.
Variable options : ComposeJsUseOptions.

Lemma getRawModuleRule_unfold (rule : RuleSetRule.t) :
  getRawModuleRule uses rule options =
  (test ← condition_field (RuleSetRule.test rule);
   include ← condition_field (RuleSetRule.include rule);
   exclude ← condition_field (RuleSetRule.exclude rule);
   resource ← condition_field (RuleSetRule.resource rule);
   resourceQuery ← condition_field (RuleSetRule.resourceQuery rule);
   use ← uses (nullish_or (RuleSetRule.use rule) (JArr [])) options;
   issuer ← condition_field (RuleSetRule.issuer rule);
   oneOf ← match RuleSetRule.oneOf rule with
           | Some l =>
               Some <$> array_map (λ i, getRawModuleRule uses i options) l
           | None => Ok None
           end;
   Ok (RawModuleRule.mk test include exclude resource resourceQuery
         (RuleSetRule.sideEffects rule) use (RuleSetRule.type rule)
         (RuleSetRule.parser rule) (RuleSetRule.generator rule)
         (RuleSetRule.resolve rule) issuer oneOf)).
Proof. destruct rule; reflexivity. Qed.

(** What a returned rule holds, one level deep. *)
Lemma getRawModuleRule_Ok (rule : RuleSetRule.t) (r : RawModuleRule.t) :
  getRawModuleRule uses rule options = Ok r →
  compiled_fields uses options rule r ∧
  encoded_oneOf (λ i, getRawModuleRule uses i options)
    (RuleSetRule.oneOf rule) (RawModuleRule.oneOf r).
Proof.
  rewrite getRawModuleRule_unfold. intros H.
  apply bind_Ok in H as (test & Htest & H).
  apply bind_Ok in H as (include & Hinclude & H).
  apply bind_Ok in H as (exclude & Hexclude & H).
  apply bind_Ok in H as (resource & Hresource & H).
  apply bind_Ok in H as (resourceQuery & HresourceQuery & H).
  apply bind_Ok in H as (use & Huse & H).
  apply bind_Ok in H as (issuer & Hissuer & H).
  apply bind_Ok in H as (oneOf & HoneOf & H).
  injection H as <-. unfold compiled_fields; simpl.
  split.
  { repeat split;
      first [apply condition_field_Ok; assumption | reflexivity | assumption]. }
  unfold encoded_oneOf. destruct (RuleSetRule.oneOf rule) as [l|].
  - apply fmap_Ok in HoneOf as (e & He & ->). exists e.
    split; [reflexivity |].
    split; [exact (array_map_length _ _ _ He) | apply array_map_Ok; exact He].
  - injection HoneOf as <-. reflexivity.
Qed.

(** The nesting depth of [oneOf] survives compilation. *)
Lemma getRawModuleRule_depth (rule : RuleSetRule.t) :
  ∀ r, getRawModuleRule uses rule options = Ok r → raw_depth r = depth rule.
Proof.
  induction rule as [rule Hleaf | rule l Hl IH] using RuleSetRule_nested_ind;
    intros r Hr; apply getRawModuleRule_Ok in Hr as [_ HoneOf].
  - rewrite Hleaf in HoneOf. simpl in HoneOf.
    destruct r, rule; simpl in *. subst. reflexivity.
  - rewrite Hl in HoneOf. destruct HoneOf as (e & He & _ & Hall).
    assert (Hmap : map raw_depth e = map depth l).
    { clear He Hl. revert e Hall.
      induction IH as [|x rest Hx _ IHrest]; intros e Hall;
        inversion Hall as [|? y ? ys Hy Hys]; subst; simpl.
      - reflexivity.
      - rewrite (Hx y Hy), (IHrest ys Hys). reflexivity. }
    destruct r, rule; simpl in *. subst. simpl. rewrite Hmap. reflexivity.
Qed.

(** On a rule of the input type, with a collaborator that returns, the
    compiler returns. *)
Lemma getRawModuleRule_total (rule : RuleSetRule.t) :
  (∀ use, ∃ chain, uses use options = Ok chain) →
  is_RuleSetRule rule = true →
  ∃ r, getRawModuleRule uses rule options = Ok r.
Proof.
  intros Huses.
  induction rule as [rule Hleaf | rule l Hl IH] using RuleSetRule_nested_ind;
    intros Hty; rewrite getRawModuleRule_unfold;
    destruct rule as [t i e r q s u ty p g rs iss o]; simpl in *; subst o;
    repeat (apply andb_prop in Hty as [Hty ?]);
    destruct (condition_field_total t ltac:(assumption)) as [t' Ht];
    destruct (condition_field_total i ltac:(assumption)) as [i' Hi];
    destruct (condition_field_total e ltac:(assumption)) as [e' He];
    destruct (condition_field_total r ltac:(assumption)) as [r' Hr];
    destruct (condition_field_total q ltac:(assumption)) as [q' Hq];
    destruct (condition_field_total iss ltac:(assumption)) as [iss' Hiss];
    destruct (Huses (nullish_or u (JArr []))) as [u' Hu];
    rewrite Ht, Hi, He, Hr, Hq; simpl; rewrite Hu; simpl; rewrite Hiss; simpl.
  - eexists; reflexivity.
  - assert (Hsub : Forall (λ x, ∃ y, getRawModuleRule uses x options = Ok y) l).
    { match goal with H : forallb _ _ = true |- _ =>
        rewrite forallb_forall in H; rename H into Hall end.
      rewrite Forall_forall in IH |- *. intros x Hx.
      apply IH; [exact Hx |]. apply Hall. apply list_elem_of_In. exact Hx. }
    destruct (array_map_total _ l Hsub) as [compiled Hcompiled].
    rewrite Hcompiled. eexists; reflexivity.
Qed.

End module_rules.

(** C2, as stated, fails: a rule whose [test] is the empty text has the field
    in the input, yet the compiled rule has no [test]. *)
Lemma getRawModuleRule_presence_counterexample :
  is_RuleSetRule (sample_rule (JStr "") None) = true ∧
  RuleSetRule.test (sample_rule (JStr "") None) = JStr "" ∧
  getRawRuleSetCondition (JStr "") = Ok (RawString "") ∧
  getRawModuleRule sample_uses (sample_rule (JStr "") None) sample_options
    = Ok (sample_raw_rule None None).
Proof. repeat split. Qed.

(** C2, amended. Compiling a module rule preserves its structure: each of the
    six condition fields is present in the output exactly when it is truthy
    in the input (absent when the field is absent or the empty text), and is
    then its encoding; the passthrough fields keep their values and [use] is
    what the loader-chain encoder returns; an [oneOf] list is absent when
    absent and otherwise compiled element-wise, same length and order; and
    the nesting depth of [oneOf] is the same. *)
Theorem getRawModuleRule_structure
  (uses : JsValue → ComposeJsUseOptions → result JsValue)
  (options : ComposeJsUseOptions) (rule : RuleSetRule.t) :
  (∀ use, ∃ chain, uses use options = Ok chain) →
  is_RuleSetRule rule = true →
  ∃ r, getRawModuleRule uses rule options = Ok r ∧
       compiled_fields uses options rule r ∧
       encoded_oneOf (λ i, getRawModuleRule uses i options)
         (RuleSetRule.oneOf rule) (RawModuleRule.oneOf r) ∧
       raw_depth r = depth rule.
Proof.
  intros Huses Hty.
  destruct (getRawModuleRule_total uses options rule Huses Hty) as [r Hr].
  exists r. split; [exact Hr |].
  destruct (getRawModuleRule_Ok uses options rule r Hr) as [Hfields HoneOf].
  split; [exact Hfields |]. split; [exact HoneOf |].
  exact (getRawModuleRule_depth uses options rule r Hr).
Qed.

Lemma getRawModuleRule_structure_witness :
  ∃ r, getRawModuleRule sample_uses sample_nested_rule sample_options = Ok r ∧
       compiled_fields sample_uses sample_options sample_nested_rule r ∧
       encoded_oneOf (λ i, getRawModuleRule sample_uses i sample_options)
         (RuleSetRule.oneOf sample_nested_rule) (RawModuleRule.oneOf r) ∧
       raw_depth r = 2%nat.
Proof.
  apply (getRawModuleRule_structure sample_uses sample_options sample_nested_rule).
  - intros use. exists use. reflexivity.
  - reflexivity.
Defined.

(** C9. An empty-text condition is treated as absent: a rule whose [test],
    [include], [exclude], [resource], [resourceQuery] or [issuer] is the
    empty text compiles to a rule without that field, and a logical object
    whose [not] is the empty text encodes to a record without [not]; no
    string variant is produced for it. *)
Theorem empty_text_condition_omitted
  (uses : JsValue → ComposeJsUseOptions → result JsValue)
  (options : ComposeJsUseOptions) (rule : RuleSetRule.t) (logical : JsValue) :
  (∀ use, ∃ chain, uses use options = Ok chain) →
  is_RuleSetRule rule = true →
  is_RuleSetLogicalConditions logical = true →
  (∃ r, getRawModuleRule uses rule options = Ok r ∧
        (RuleSetRule.test rule = JStr "" → RawModuleRule.test r = None) ∧
        (RuleSetRule.include rule = JStr "" → RawModuleRule.include r = None) ∧
        (RuleSetRule.exclude rule = JStr "" → RawModuleRule.exclude r = None) ∧
        (RuleSetRule.resource rule = JStr "" → RawModuleRule.resource r = None) ∧
        (RuleSetRule.resourceQuery rule = JStr "" →
         RawModuleRule.resourceQuery r = None) ∧
        (RuleSetRule.issuer rule = JStr "" → RawModuleRule.issuer r = None)) ∧
  (∃ l, getRawRuleSetLogicalConditions logical = Ok l ∧
        (get_prop logical "not" = JStr "" → raw_not l = None)).
Proof.
  intros Huses Hrule Hlogical. split.
  - destruct (getRawModuleRule_total uses options rule Huses Hrule) as [r Hr].
    exists r. split; [exact Hr |].
    destruct (getRawModuleRule_Ok uses options rule r Hr) as [Hfields _].
    destruct Hfields as (Ht & Hi & He & Hs & Hq & Hiss & _).
    repeat split; intros Hempty;
      match goal with
      | H : encoded_field ?v ?o |- ?o = None =>
          rewrite Hempty in H; exact H
      end.
  - destruct (getRawRuleSetLogicalConditions_keys_total logical Hlogical)
      as (l & Hl & _ & _ & Hnot).
    exists l. split; [exact Hl |]. intros Hempty.
    rewrite Hempty in Hnot. exact Hnot.
Qed.

Lemma empty_text_condition_omitted_witness :
  (∃ r, getRawModuleRule sample_uses (sample_rule (JStr "") None) sample_options
          = Ok r ∧ RawModuleRule.test r = None) ∧
  (∃ l, getRawRuleSetLogicalConditions (object [("not", JStr "")]) = Ok l ∧
        raw_not l = None).
Proof.
  destruct (empty_text_condition_omitted sample_uses sample_options
              (sample_rule (JStr "") None) (object [("not", JStr "")]))
    as [(r & Hr & Htest & _) (l & Hl & Hnot)].
  - intros use. exists use. reflexivity.
  - reflexivity.
  - reflexivity.
  - split.
    + exists r. split; [exact Hr | apply Htest; reflexivity].
    + exists l. split; [exact Hl | apply Hnot; reflexivity].
Defined.

(** ** The module-tree compiler *)

(** C3. With default rules [defaults] and user rules [rules], each list
    compiling to [d] and [u], the module compiler returns exactly [d ++ u]:
    the compiled default rules first, then the compiled user rules, every
    rule at its place and none merged or dropped; the parser configuration
    is passed through beside it. *)
Theorem getRawModule_order
  (uses : JsValue → ComposeJsUseOptions → result JsValue)
  (options : ComposeJsUseOptions) (module : ModuleOptionsNormalized.t)
  (defaults : list RuleSetRule.t) (d u : list RawModuleRule.t) :
  ModuleOptionsNormalized.defaultRules module = Some defaults →
  array_map (λ i, getRawModuleRule uses i options) defaults = Ok d →
  array_map (λ i, getRawModuleRule uses i options)
    (ModuleOptionsNormalized.rules module) = Ok u →
  getRawModule uses module options
    = Ok {| RawModuleOptions.rules := d ++ u;
            RawModuleOptions.parser := ModuleOptionsNormalized.parser module |} ∧
  length (d ++ u)
    = (length defaults + length (ModuleOptionsNormalized.rules module))%nat.
Proof.
  intros Hdefaults Hd Hu. split.
  - unfold getRawModule. rewrite Hdefaults. simpl.
    rewrite (array_map_app _ _ _ _ _ Hd Hu). reflexivity.
  - rewrite length_app.
    rewrite (array_map_length _ _ _ Hd), (array_map_length _ _ _ Hu).
    reflexivity.
Qed.

Lemma getRawModule_order_witness :
  getRawModule sample_uses sample_module sample_options
    = Ok {| RawModuleOptions.rules :=
              [sample_raw_rule (Some (RawString "d1")) None;
               sample_raw_rule (Some (RawString "d2")) None] ++
              [sample_raw_rule (Some (RawString "d1")) None];
            RawModuleOptions.parser := JUndefined |} ∧
  length ([sample_raw_rule (Some (RawString "d1")) None;
           sample_raw_rule (Some (RawString "d2")) None] ++
          [sample_raw_rule (Some (RawString "d1")) None]) = (2 + 1)%nat.
Proof.
  apply (getRawModule_order sample_uses sample_options sample_module
           [sample_rule (JStr "d1") None; sample_rule (JStr "d2") None]);
    reflexivity.
Defined.

(** C6. When the default-rule list is nil the module compiler raises the
    precondition-violation error whatever the rules and the loader-chain
    encoder are, so no rule is compiled; when the list is present the guard
    raises nothing and the result is that of compiling the rules. *)
Theorem getRawModule_guard
  (uses : JsValue → ComposeJsUseOptions → result JsValue)
  (options : ComposeJsUseOptions)
  (rules : list RuleSetRule.t) (parser : JsValue) :
  getRawModule uses (ModuleOptionsNormalized.mk None rules parser) options
    = Throw (AssertionError (Some defaultRules_message)) ∧
  ∀ defaults : list RuleSetRule.t,
    assert (negb (isNil (Some defaults))) (Some defaultRules_message) = Ok () ∧
    getRawModule uses (ModuleOptionsNormalized.mk (Some defaults) rules parser)
      options
    = (compiled ← array_map (λ i, getRawModuleRule uses i options)
                    (defaults ++ rules);
       Ok {| RawModuleOptions.rules := compiled;
             RawModuleOptions.parser := parser |}).
Proof.
  split; [reflexivity |]. intros defaults. split; reflexivity.
Qed.

(** ** Objects rebuilt entry by entry *)

(** Writing mapped entries one after the other, into [acc]. *)
Lemma foldl_insert_lookup {A B} (f : A → B) (l : list (string * A))
  (acc : gmap string B) (k : string) :
  NoDup l.*1 →
  foldl (λ o kv, <[kv.1 := f kv.2]> o) acc l !! k =
  match (list_to_map l : gmap string A) !! k with
  | Some v => Some (f v)
  | None => acc !! k
  end.
Proof.
  revert acc. induction l as [|[k0 v0] rest IH]; intros acc Hnodup.
  - simpl. rewrite lookup_empty. reflexivity.
  - rewrite fmap_cons in Hnodup. apply NoDup_cons in Hnodup as [Hfresh Hnodup].
    cbn [foldl fst snd]. rewrite (IH _ Hnodup), list_to_map_cons.
    cbn [fst] in Hfresh.
    destruct (decide (k0 = k)) as [->|Hne].
    + rewrite (not_elem_of_list_to_map_1 rest k Hfresh).
      rewrite !lookup_insert_eq. reflexivity.
    + rewrite !(lookup_insert_ne _ k0 k) by exact Hne. reflexivity.
Qed.

Lemma foldl_insert_entries {A B} (f : A → B) (m : gmap string A) :
  foldl (λ o kv, <[kv.1 := f kv.2]> o) ∅ (map_to_list m) = f <$> m.
Proof.
  apply map_eq. intros k.
  rewrite foldl_insert_lookup by apply NoDup_fst_map_to_list.
  rewrite list_to_map_to_list, lookup_fmap, lookup_empty.
  destruct (m !! k); reflexivity.
Qed.

(** [Object.fromEntries(Object.entries(o).map(([k, v]) => [k, f(v)]))] maps
    [f] over the values of [o]. *)
Lemma Object_fromEntries_map {A B} (f : A → B) (m : gmap string A) :
  Object_fromEntries (map (λ '(key, v), (key, f v)) (Object_entries m)) = f <$> m.
Proof.
  unfold Object_fromEntries, Object_entries.
  rewrite <- (foldl_insert_entries f m).
  generalize (∅ : gmap string B). induction (map_to_list m) as [|[k v] rest IH];
    intros acc; simpl; [reflexivity | apply IH].
Qed.

(** Assigning mapped entries one after the other, into [acc]. *)
Lemma foldl_assign_lookup {A B} (f : A → B) (l : list (string * A))
  (acc : gmap string B) (k : string) :
  NoDup l.*1 →
  foldl (λ o kv, assign o kv.1 (f kv.2)) acc l !! k =
  if String.eqb k "__proto__" then acc !! k
  else match (list_to_map l : gmap string A) !! k with
       | Some v => Some (f v)
       | None => acc !! k
       end.
Proof.
  revert acc. induction l as [|[k0 v0] rest IH]; intros acc Hnodup.
  - simpl. rewrite lookup_empty. destruct (String.eqb k "__proto__"); reflexivity.
  - rewrite fmap_cons in Hnodup. apply NoDup_cons in Hnodup as [Hfresh Hnodup].
    cbn [foldl fst snd]. rewrite (IH _ Hnodup), list_to_map_cons.
    cbn [fst] in Hfresh. unfold assign.
    destruct (String.eqb k "__proto__") eqn:Hk.
    + destruct (String.eqb k0 "__proto__") eqn:Hk0; [reflexivity |].
      apply String.eqb_eq in Hk. apply String.eqb_neq in Hk0.
      rewrite lookup_insert_ne by congruence. reflexivity.
    + destruct (decide (k0 = k)) as [Heq | Hne].
      * subst k0. rewrite Hk.
        rewrite (not_elem_of_list_to_map_1 rest k Hfresh).
        rewrite !lookup_insert_eq. reflexivity.
      * rewrite (lookup_insert_ne _ k0 k) by exact Hne.
        destruct (String.eqb k0 "__proto__"); [reflexivity |].
        rewrite (lookup_insert_ne _ k0 k) by exact Hne. reflexivity.
Qed.

Lemma foldl_assign_entries {A B} (f : A → B) (m : gmap string A) :
  foldl (λ o kv, assign o kv.1 (f kv.2)) ∅ (map_to_list m)
  = f <$> delete "__proto__" m.
Proof.
  apply map_eq. intros k.
  rewrite foldl_assign_lookup by apply NoDup_fst_map_to_list.
  rewrite list_to_map_to_list, lookup_fmap, lookup_delete, lookup_empty.
  destruct (String.eqb k "__proto__") eqn:Hk.
  - apply String.eqb_eq in Hk. rewrite decide_True by congruence. reflexivity.
  - apply String.eqb_neq in Hk. rewrite decide_False by congruence.
    destruct (m !! k); reflexivity.
Qed.

(** [getRawEntry] has no guard: it returns on every entry map, one item per
    entry whose key is not [__proto__]. *)
Lemma getRawEntry_Ok (entry : gmap string EntryDescription.t) :
  getRawEntry entry =
  Ok ((λ description,
         {| RawEntryItem.import := EntryDescription.import description;
            RawEntryItem.runtime :=
              match EntryDescription.runtime description with
              | Some RuntimeFalse => None
              | Some (RuntimeName name) => Some name
              | None => None
              end |}) <$> delete "__proto__" entry).
Proof.
  unfold getRawEntry, Object_keys.
  rewrite <- foldl_assign_entries.
  assert (Hin : ∀ k v, (k, v) ∈ map_to_list entry → entry !! k = Some v)
    by (intros k v; apply elem_of_map_to_list).
  generalize (∅ : gmap string RawEntryItem.t).
  induction (map_to_list entry) as [|[k v] rest IH]; intros acc; simpl.
  - reflexivity.
  - unfold index. rewrite (Hin k v) by (left). simpl.
    apply IH. intros k' v' Hin'. apply Hin. right. exact Hin'.
Qed.

(** ** The optimization encoder *)

Example String_true : String_ (Some (OfBoolean true)) = "true".
Proof. reflexivity. Qed.

Example String_false : String_ (Some (OfBoolean false)) = "false".
Proof. reflexivity. Qed.


(** C8. When the optimization fields required after defaulting are there, the
    encoder returns; the split-chunks field of the result is absent when the
    split-chunks configuration is absent; when it is present with cache
    groups, the result has exactly one entry per named group, and the entry
    of a group holds the five fields: the source text of its pattern when it
    has one, its name, its priority, its minimum chunk count and its
    chunk-selection mode. *)
Theorem getRawOptimization_splitChunks (optimization : Optimization.t) :
  isNil (Optimization.moduleIds optimization) = false →
  isNil (Optimization.removeAvailableModules optimization) = false →
  isNil (Optimization.sideEffects optimization) = false →
  ∃ r, getRawOptimization optimization = Ok r ∧
       match Optimization.splitChunks optimization with
       | None => RawOptimization.splitChunks r = None
       | Some sc =>
           ∃ raw, RawOptimization.splitChunks r = Some raw ∧
             match OptimizationSplitChunksOptions.cacheGroups sc with
             | None => True
             | Some groups =>
                 ∃ rawGroups : gmap string RawCacheGroupOptions.t,
                   RawSplitChunksOptions.cacheGroups raw = Some rawGroups ∧
                   dom rawGroups = dom groups ∧
                   size rawGroups = size groups ∧
                   ∀ key group, groups !! key = Some group →
                     rawGroups !! key =
                     Some {| RawCacheGroupOptions.test :=
                               source <$> CacheGroup.test group;
                             RawCacheGroupOptions.name := CacheGroup.name group;
                             RawCacheGroupOptions.priority :=
                               CacheGroup.priority group;
                             RawCacheGroupOptions.minChunks :=
                               CacheGroup.minChunks group;
                             RawCacheGroupOptions.chunks :=
                               CacheGroup.chunks group |}
             end
       end.
Proof.
  intros Hids Hremove Hside. unfold getRawOptimization.
  rewrite Hids, Hremove, Hside. simpl. eexists. split; [reflexivity |]. simpl.
  destruct (Optimization.splitChunks optimization) as [sc|]; [| reflexivity].
  eexists. split; [reflexivity |]. simpl.
  destruct (OptimizationSplitChunksOptions.cacheGroups sc) as [groups|];
    [| exact I].
  eexists. split; [reflexivity |].
  rewrite (Object_fromEntries_map normalizedGroup groups).
  split; [apply dom_fmap_L |]. split; [apply map_size_fmap |].
  intros key group Hgroup. rewrite lookup_fmap, Hgroup. simpl.
  unfold normalizedGroup. destruct (CacheGroup.test group); reflexivity.
Qed.

Lemma getRawOptimization_splitChunks_witness :
  ∃ r, getRawOptimization
         (sample_optimization (Some (sample_splitChunks (Some sample_cacheGroups))))
       = Ok r ∧
       ∃ raw, RawOptimization.splitChunks r = Some raw ∧
         ∃ rawGroups : gmap string RawCacheGroupOptions.t,
           RawSplitChunksOptions.cacheGroups raw = Some rawGroups ∧
           dom rawGroups = dom sample_cacheGroups ∧
           size rawGroups = size sample_cacheGroups ∧
           ∀ key group, sample_cacheGroups !! key = Some group →
             rawGroups !! key =
             Some {| RawCacheGroupOptions.test := source <$> CacheGroup.test group;
                     RawCacheGroupOptions.name := CacheGroup.name group;
                     RawCacheGroupOptions.priority := CacheGroup.priority group;
                     RawCacheGroupOptions.minChunks := CacheGroup.minChunks group;
                     RawCacheGroupOptions.chunks := CacheGroup.chunks group |}.
Proof.
  apply (getRawOptimization_splitChunks
           (sample_optimization
              (Some (sample_splitChunks (Some sample_cacheGroups)))));
    reflexivity.
Defined.

(** C10. A split-chunks configuration that is present but has no cache-group
    map is encoded with an empty cache-group record, not with an absent
    field; so an optimization input carrying it gets a split-chunks record
    whose cache groups are empty, whereas an input without split chunks gets
    no split-chunks record at all. *)
Theorem getRawSplitChunksOptions_no_cacheGroups
  (sc : OptimizationSplitChunksOptions.t) :
  OptimizationSplitChunksOptions.cacheGroups sc = None →
  RawSplitChunksOptions.cacheGroups (getRawSplitChunksOptions sc) = Some ∅ ∧
  RawSplitChunksOptions.cacheGroups (getRawSplitChunksOptions sc) ≠ None ∧
  ∀ optimization r,
    Optimization.splitChunks optimization = Some sc →
    getRawOptimization optimization = Ok r →
    ∃ raw, RawOptimization.splitChunks r = Some raw ∧
           RawSplitChunksOptions.cacheGroups raw = Some ∅.
Proof.
  intros Hnone.
  assert (Hraw : RawSplitChunksOptions.cacheGroups (getRawSplitChunksOptions sc)
                 = Some ∅)
    by (unfold getRawSplitChunksOptions; rewrite Hnone; reflexivity).
  split; [exact Hraw |]. split; [rewrite Hraw; discriminate |].
  intros optimization r Hsc Hr. unfold getRawOptimization in Hr.
  apply bind_Ok in Hr as (_ & _ & Hr). injection Hr as <-. simpl.
  rewrite Hsc. exists (getRawSplitChunksOptions sc).
  split; [reflexivity | exact Hraw].
Qed.

Lemma getRawSplitChunksOptions_no_cacheGroups_witness :
  RawSplitChunksOptions.cacheGroups
    (getRawSplitChunksOptions (sample_splitChunks None)) = Some ∅ ∧
  (∃ raw, RawOptimization.splitChunks
            {| RawOptimization.splitChunks :=
                 Some (getRawSplitChunksOptions (sample_splitChunks None));
               RawOptimization.moduleIds := Some "named";
               RawOptimization.removeAvailableModules := Some true;
               RawOptimization.sideEffects := "true" |} = Some raw ∧
          RawSplitChunksOptions.cacheGroups raw = Some ∅).
Proof.
  destruct (getRawSplitChunksOptions_no_cacheGroups (sample_splitChunks None))
    as (Hempty & _ & Hoptimization); [reflexivity |].
  split; [exact Hempty |].
  apply (Hoptimization (sample_optimization (Some (sample_splitChunks None))));
    reflexivity.
Defined.

(** ** The section encoders *)

Example getRawExternals_react :
  getRawExternals (ExternalsString "react") = {[ "react" := "react" ]}.
Proof. reflexivity. Qed.

Example getRawTarget_web : getRawTarget (Some (TargetString "web")) = ["web"].
Proof. reflexivity. Qed.

Example getRawTarget_list :
  getRawTarget (Some (TargetArray ["web"; "es5"])) = ["web"; "es5"].
Proof. reflexivity. Qed.


Lemma getRawOutput_guard (output : OutputNormalized.t) :
  match getRawOutput output with
  | Ok r =>
      (OutputNormalized.path output ≠ None ∧
       OutputNormalized.publicPath output ≠ None ∧
       OutputNormalized.assetModuleFilename output ≠ None ∧
       OutputNormalized.filename output ≠ None ∧
       OutputNormalized.chunkFilename output ≠ None ∧
       OutputNormalized.cssFilename output ≠ None ∧
       OutputNormalized.cssChunkFilename output ≠ None ∧
       OutputNormalized.uniqueName output ≠ None ∧
       OutputNormalized.strictModuleErrorHandling output ≠ None) ∧
      RawOutput.path r = OutputNormalized.path output ∧
      RawOutput.publicPath r = OutputNormalized.publicPath output ∧
      RawOutput.assetModuleFilename r = OutputNormalized.assetModuleFilename output ∧
      RawOutput.filename r = OutputNormalized.filename output ∧
      RawOutput.chunkFilename r = OutputNormalized.chunkFilename output ∧
      RawOutput.cssFilename r = OutputNormalized.cssFilename output ∧
      RawOutput.cssChunkFilename r = OutputNormalized.cssChunkFilename output ∧
      RawOutput.uniqueName r = OutputNormalized.uniqueName output ∧
      RawOutput.library r = OutputNormalized.library output ∧
      RawOutput.strictModuleErrorHandling r
        = OutputNormalized.strictModuleErrorHandling output
  | Throw e =>
      e = AssertionError (Some output_message) ∧
      (OutputNormalized.path output = None ∨
       OutputNormalized.publicPath output = None ∨
       OutputNormalized.assetModuleFilename output = None ∨
       OutputNormalized.filename output = None ∨
       OutputNormalized.chunkFilename output = None ∨
       OutputNormalized.cssFilename output = None ∨
       OutputNormalized.cssChunkFilename output = None ∨
       OutputNormalized.uniqueName output = None ∨
       OutputNormalized.strictModuleErrorHandling output = None)
  end.
Proof.
  unfold getRawOutput.
  destruct output as [p pp a f c cf ccf u lib s]; simpl.
  destruct p; [| simpl; split; [reflexivity | auto 12]].
  destruct pp; [| simpl; split; [reflexivity | auto 12]].
  destruct a; [| simpl; split; [reflexivity | auto 12]].
  destruct f; [| simpl; split; [reflexivity | auto 12]].
  destruct c; [| simpl; split; [reflexivity | auto 12]].
  destruct cf; [| simpl; split; [reflexivity | auto 12]].
  destruct ccf; [| simpl; split; [reflexivity | auto 12]].
  destruct u; [| simpl; split; [reflexivity | auto 12]].
  destruct s; [| simpl; split; [reflexivity | auto 12]].
  simpl. repeat split; discriminate.
Qed.

Lemma getRawSnapshotOptions_guard (snapshot : SnapshotOptions.t) :
  match getRawSnapshotOptions snapshot with
  | Ok r =>
      SnapshotOptions.resolve snapshot = Some (RawSnapshotOptions.resolve r) ∧
      SnapshotOptions.module snapshot = Some (RawSnapshotOptions.module r) ∧
      SnapshotSection.timestamp (RawSnapshotOptions.resolve r) ≠ None ∧
      SnapshotSection.hash (RawSnapshotOptions.resolve r) ≠ None ∧
      SnapshotSection.timestamp (RawSnapshotOptions.module r) ≠ None ∧
      SnapshotSection.hash (RawSnapshotOptions.module r) ≠ None
  | Throw e =>
      e = AssertionError None ∧
      (SnapshotOptions.resolve snapshot = None ∨
       SnapshotOptions.module snapshot = None ∨
       ∃ resolve module,
         SnapshotOptions.resolve snapshot = Some resolve ∧
         SnapshotOptions.module snapshot = Some module ∧
         (SnapshotSection.timestamp resolve = None ∨
          SnapshotSection.hash resolve = None ∨
          SnapshotSection.timestamp module = None ∨
          SnapshotSection.hash module = None))
  end.
Proof.
  unfold getRawSnapshotOptions.
  destruct snapshot as [[[rt rh]|] [[mt mh]|]]; simpl;
    try (split; [reflexivity | auto]).
  destruct rt; [| simpl; split; [reflexivity | eauto 10]].
  destruct rh; [| simpl; split; [reflexivity | eauto 10]].
  destruct mt; [| simpl; split; [reflexivity | eauto 10]].
  destruct mh; [| simpl; split; [reflexivity | eauto 10]].
  simpl. repeat split; discriminate.
Qed.

Lemma getRawExperiments_guard (experiments : Experiments) :
  match getRawExperiments experiments with
  | Ok r =>
      lazyCompilation experiments ≠ None ∧
      incrementalRebuild experiments ≠ None ∧
      r = experiments
  | Throw e =>
      e = AssertionError None ∧
      (lazyCompilation experiments = None ∨ incrementalRebuild experiments = None)
  end.
Proof.
  destruct experiments as [[l|] [i|]]; simpl;
    repeat split; try discriminate; auto.
Qed.

Lemma getRawNode_guard (node : Node) :
  match getRawNode node with
  | Ok r => __dirname node ≠ None ∧ dirname r = String_ (__dirname node)
  | Throw e => e = AssertionError None ∧ __dirname node = None
  end.
Proof.
  destruct node as [[d|]]; simpl; repeat split; try discriminate; auto.
Qed.




(** * Further properties of the adapter *)

(** ** Failures of [array_map] *)

Lemma bind_Throw {A B} (f : A → result B) (m : result A) (e : Exception) :
  m = Throw e → m ≫= f = Throw e.
Proof. intros ->. reflexivity. Qed.

Lemma array_map_first_error {A B} (f : A → result B)
  (before : list A) (x : A) (after : list A) (done : list B) (err : Exception) :
  array_map f before = Ok done → f x = Throw err →
  array_map f (before ++ x :: after) = Throw err.
Proof.
  revert done. induction before as [|y rest IH]; intros done Hdone Hx; simpl.
  - rewrite Hx. reflexivity.
  - simpl in Hdone. destruct (f y) as [y'|]; [| discriminate].
    destruct (array_map f rest) as [ys|] eqn:Hrest; [| discriminate].
    rewrite (IH ys eq_refl Hx). reflexivity.
Qed.

Lemma array_map_app_Throw_l {A B} (f : A → result B) (l1 l2 : list A)
  (err : Exception) :
  array_map f l1 = Throw err → array_map f (l1 ++ l2) = Throw err.
Proof.
  induction l1 as [|x rest IH]; simpl; [discriminate |].
  destruct (f x) as [y|]; [| trivial].
  destruct (array_map f rest) as [ys|]; [discriminate |].
  intros H. rewrite (IH H). reflexivity.
Qed.

Lemma array_map_app_Throw_r {A B} (f : A → result B) (l1 l2 : list A)
  (done : list B) (err : Exception) :
  array_map f l1 = Ok done → array_map f l2 = Throw err →
  array_map f (l1 ++ l2) = Throw err.
Proof.
  revert done. induction l1 as [|x rest IH]; intros done; simpl.
  - intros _ H. exact H.
  - destruct (f x) as [y|]; [| discriminate].
    destruct (array_map f rest) as [ys|]; [| discriminate].
    intros _ H. rewrite (IH ys eq_refl H). reflexivity.
Qed.

(** ** More on the condition encoder *)

(** X1. Whatever the value, a returned condition tells what the value was: a
    string variant comes from that very text, a regexp variant from a pattern
    with that source, an array variant from a list encoded element by element
    in order, and a logical variant from an object, whose encoded logical
    record is the single element of the payload. *)
Theorem getRawRuleSetCondition_inversion
  (condition : JsValue) (r : RawRuleSetCondition) :
  getRawRuleSetCondition condition = Ok r →
  match r with
  | RawString s => condition = JStr s
  | RawRegexp s => ∃ pattern, condition = JRegExp pattern ∧ source pattern = s
  | RawArray e => ∃ l, condition = JArr l ∧ encoded_list l e
  | RawLogical ls =>
      ∃ cls get logical,
        condition = JObj cls get ∧ ls = [logical] ∧
        getRawRuleSetLogicalConditions condition = Ok logical
  end.
Proof.
  destruct condition as [| | | | s | p | l | cls get]; simpl;
    try discriminate.
  - intros [= <-]. reflexivity.
  - intros [= <-]. exists p. split; reflexivity.
  - intros H. apply fmap_Ok in H as (e & He & ->).
    exists l. split; [reflexivity | apply array_map_Ok; exact He].
  - intros H. apply fmap_Ok in H as (logical & Hl & ->).
    exists cls, get, logical. repeat split. exact Hl.
Qed.

Lemma getRawRuleSetCondition_inversion_witness :
  ∃ l, JArr [JStr "a"; JRegExp (mkRegExp "b" "g")] = JArr l ∧
       encoded_list l [RawString "a"; RawRegexp "b"].
Proof.
  apply (getRawRuleSetCondition_inversion
           (JArr [JStr "a"; JRegExp (mkRegExp "b" "g")])
           (RawArray [RawString "a"; RawRegexp "b"])).
  reflexivity.
Defined.

(** X2. A list condition is encoded all or nothing: when the elements before
    some element encode and that element fails, the list fails with that
    element's error, whatever comes after it. *)
Theorem getRawRuleSetCondition_first_error
  (before : list JsValue) (x : JsValue) (after : list JsValue)
  (done : list RawRuleSetCondition) (err : Exception) :
  encoded_list before done →
  getRawRuleSetCondition x = Throw err →
  getRawRuleSetCondition (JArr (before ++ x :: after)) = Throw err.
Proof.
  intros Hdone Hx. simpl.
  apply array_map_Ok in Hdone.
  rewrite (array_map_first_error _ before x after done err Hdone Hx).
  reflexivity.
Qed.

Lemma getRawRuleSetCondition_first_error_witness :
  getRawRuleSetCondition (JArr ([JStr "a"] ++ JNum 1 :: [JStr "b"; JNull]))
    = Throw (Error unreachable_message).
Proof.
  apply (getRawRuleSetCondition_first_error
           [JStr "a"] (JNum 1) [JStr "b"; JNull] [RawString "a"]).
  - repeat constructor.
  - reflexivity.
Defined.

(** X3. The logical encoder maps over [and] and [or] without checking that
    they are lists: an object whose [and] is truthy, is no array and has no
    [map] method (a text, a number, [true], a pattern, an object or function
    without one) makes both encoders fail with a TypeError; so does such an
    [or] when [and] is absent. *)
Theorem logical_list_not_array (cls : ObjectClass) (get : string → JsValue)
  (key : string) :
  (key = "and" ∨ (key = "or" ∧ get "and" = JUndefined)) →
  truthy (get key) = true →
  has_map_method (get key) = false →
  ∃ message,
    getRawRuleSetLogicalConditions (JObj cls get) = Throw (TypeError message) ∧
    getRawRuleSetCondition (JObj cls get) = Throw (TypeError message).
Proof.
  intros Hkey Htruthy Hmap.
  assert (Hcall : call_map (get key) getRawRuleSetCondition
                  = Throw (TypeError "map is not a function"))
    by (destruct (get key); simpl in *; try discriminate; reflexivity).
  exists "map is not a function".
  assert (Hlogical : logicalConditions getRawRuleSetCondition get
                     = Throw (TypeError "map is not a function")).
  { unfold logicalConditions. destruct Hkey as [-> | [-> Hand]].
    - rewrite Htruthy, Hcall. reflexivity.
    - rewrite Hand. simpl. rewrite Htruthy, Hcall. reflexivity. }
  split.
  - exact Hlogical.
  - simpl. rewrite Hlogical. reflexivity.
Qed.

Lemma logical_list_not_array_witness :
  ∃ message,
    getRawRuleSetLogicalConditions (object [("or", JStr "src")])
      = Throw (TypeError message) ∧
    getRawRuleSetCondition (object [("or", JStr "src")])
      = Throw (TypeError message).
Proof.
  apply (logical_list_not_array PlainObject (lookup_prop [("or", JStr "src")]) "or").
  - right. split; reflexivity.
  - reflexivity.
  - reflexivity.
Defined.

Lemma canonical_optional_list (v : JsValue)
  (a : option (list RawRuleSetCondition)) :
  (∀ r, getRawRuleSetCondition v = Ok r → canonical r = true) →
  (if truthy v then Some <$> call_map v getRawRuleSetCondition else Ok None)
    = Ok a →
  match a with Some e => forallb canonical e | None => true end = true.
Proof.
  intros IH H. destruct (truthy v).
  - apply fmap_Ok in H as (e & He & ->).
    destruct v; simpl in He; try discriminate.
    apply (IH (RawArray e)). simpl. rewrite He. reflexivity.
  - injection H as <-. reflexivity.
Qed.

Lemma canonical_optional_not (v : JsValue) (n : option RawRuleSetCondition) :
  (∀ r, getRawRuleSetCondition v = Ok r → canonical r = true) →
  (if truthy v then Some <$> getRawRuleSetCondition v else Ok None) = Ok n →
  match n with
  | Some (RawString s) => negb (String.eqb s "")
  | Some c => canonical c
  | None => true
  end = true.
Proof.
  intros IH H. destruct (truthy v) eqn:Htruthy.
  - apply fmap_Ok in H as (c & Hc & ->).
    pose proof (IH c Hc) as Hcanonical.
    destruct c as [s | s | e | ls]; try exact Hcanonical.
    destruct v; simpl in Hc; try discriminate.
    + injection Hc as ->. exact Htruthy.
    + destruct (array_map getRawRuleSetCondition elems); discriminate.
    + destruct (logicalConditions getRawRuleSetCondition get); discriminate.
  - injection H as <-. reflexivity.
Qed.



Lemma normalize_list (l : list JsValue) :
  Forall (λ v, ∀ r, getRawRuleSetCondition v = Ok r →
                    is_RuleSetCondition (normalize v) = true ∧
                    getRawRuleSetCondition (normalize v) = Ok r) l →
  ∀ e, array_map getRawRuleSetCondition l = Ok e →
       forallb is_RuleSetCondition (map normalize l) = true ∧
       array_map getRawRuleSetCondition (map normalize l) = Ok e.
Proof.
  induction 1 as [|v rest Hv _ IH]; intros e He; simpl in *.
  - injection He as <-. split; reflexivity.
  - destruct (getRawRuleSetCondition v) as [r|] eqn:Hr; [| discriminate].
    destruct (array_map getRawRuleSetCondition rest) as [rs|]; [| discriminate].
    injection He as <-.
    destruct (Hv r eq_refl) as [Hty Henc]. destruct (IH rs eq_refl) as [Htys Hencs].
    rewrite Hty, Htys, Henc, Hencs. split; reflexivity.
Qed.

Lemma normalize_optional_list (v : JsValue)
  (a : option (list RawRuleSetCondition)) :
  (∀ r, getRawRuleSetCondition v = Ok r →
        is_RuleSetCondition (normalize v) = true ∧
        getRawRuleSetCondition (normalize v) = Ok r) →
  (if truthy v then Some <$> call_map v getRawRuleSetCondition else Ok None)
    = Ok a →
  let v' := match v with JArr l => JArr (map normalize l) | _ => JUndefined end in
  is_optional_conditions is_RuleSetCondition v' = true ∧
  (if truthy v' then Some <$> call_map v' getRawRuleSetCondition else Ok None)
    = Ok a.
Proof.
  intros IH H. destruct (truthy v) eqn:Htruthy.
  - apply fmap_Ok in H as (e & He & ->).
    destruct v as [| | | | s | p | l | cls get]; simpl in He; try discriminate.
    destruct (IH (RawArray e)) as [Hty Henc]; [simpl; rewrite He; reflexivity |].
    simpl in Hty, Henc. apply fmap_Ok in Henc as (e' & He' & [= <-]).
    simpl. rewrite He'. split; [exact Hty | reflexivity].
  - destruct v; simpl in Htruthy; try discriminate; simpl;
      (split; [reflexivity | exact H]).
Qed.

Lemma normalize_optional_not (v : JsValue) (n : option RawRuleSetCondition) :
  (∀ r, getRawRuleSetCondition v = Ok r →
        is_RuleSetCondition (normalize v) = true ∧
        getRawRuleSetCondition (normalize v) = Ok r) →
  (if truthy v then Some <$> getRawRuleSetCondition v else Ok None) = Ok n →
  let v' := if truthy v then normalize v else JUndefined in
  is_optional_condition is_RuleSetCondition v' = true ∧
  (if truthy v' then Some <$> getRawRuleSetCondition v' else Ok None) = Ok n.
Proof.
  intros IH H. simpl. destruct (truthy v) eqn:Htruthy.
  - apply fmap_Ok in H as (c & Hc & ->).
    destruct (IH c Hc) as [Hty Henc].
    assert (Hsame : truthy (normalize v) = true)
      by (destruct v; simpl in *; try discriminate; try reflexivity;
          exact Htruthy).
    rewrite Hsame, Henc. split; [| reflexivity].
    destruct (normalize v); simpl in *; try discriminate; exact Hty.
  - split; [reflexivity | exact H].
Qed.

Lemma normalize_encodes (v : JsValue) :
  ∀ r, getRawRuleSetCondition v = Ok r →
       is_RuleSetCondition (normalize v) = true ∧
       getRawRuleSetCondition (normalize v) = Ok r.
Proof.
  induction v as [| | | | s | p | l IH | cls get IH] using JsValue_nested_ind;
    intros r; simpl; try discriminate.
  - intros H. split; [reflexivity | exact H].
  - intros H. split; [reflexivity | exact H].
  - intros H. apply fmap_Ok in H as (e & He & ->).
    destruct (normalize_list l IH e He) as [Hty Henc].
    rewrite Henc. split; [exact Hty | reflexivity].
  - intros H. apply fmap_Ok in H as (logical & Hl & ->).
    unfold logicalConditions in Hl |- *.
    apply bind_Ok in Hl as (a & Ha & Hl).
    apply bind_Ok in Hl as (o & Ho & Hl).
    apply bind_Ok in Hl as (n & Hn & Hl).
    injection Hl as <-.
    destruct (normalize_optional_list _ a (IH "and") Ha) as [Htya Henca].
    destruct (normalize_optional_list _ o (IH "or") Ho) as [Htyo Henco].
    destruct (normalize_optional_not _ n (IH "not") Hn) as [Htyn Hencn].
    simpl in Htya, Htyo, Htyn, Henca, Henco, Hencn. simpl.
    rewrite Htya, Htyo, Htyn, Henca; simpl.
    rewrite Henco; simpl. rewrite Hencn; simpl. split; reflexivity.
Qed.



(** ** More on the module-rule and module-tree compilers *)

(** X6. A rule without loader chain compiles like the rule with the empty
    chain: an absent [use] and a [null] one are both handed to the
    loader-chain encoder as the empty list. *)
Theorem getRawModuleRule_use_absent
  (uses : JsValue → ComposeJsUseOptions → result JsValue)
  (options : ComposeJsUseOptions) (rule : RuleSetRule.t) :
  getRawModuleRule uses (with_use rule JUndefined) options
    = getRawModuleRule uses (with_use rule (JArr [])) options ∧
  getRawModuleRule uses (with_use rule JNull) options
    = getRawModuleRule uses (with_use rule (JArr [])) options.
Proof.
  rewrite !getRawModuleRule_unfold. destruct rule; split; reflexivity.
Qed.

(** X7. The fields of a rule are encoded in the order of the source, and the
    first failure is the rule's failure: a [test] that cannot be encoded
    fails the rule whatever the loader-chain encoder and the other fields
    are; and when the five conditions before [use] encode, a failure of the
    loader-chain encoder fails the rule whatever [issuer] and [oneOf] are. *)
Theorem getRawModuleRule_first_error
  (uses : JsValue → ComposeJsUseOptions → result JsValue)
  (options : ComposeJsUseOptions) (rule : RuleSetRule.t) (err : Exception) :
  (condition_field (RuleSetRule.test rule) = Throw err →
   getRawModuleRule uses rule options = Throw err) ∧
  (is_optional_condition is_RuleSetCondition (RuleSetRule.test rule) = true →
   is_optional_condition is_RuleSetCondition (RuleSetRule.include rule) = true →
   is_optional_condition is_RuleSetCondition (RuleSetRule.exclude rule) = true →
   is_optional_condition is_RuleSetCondition (RuleSetRule.resource rule) = true →
   is_optional_condition is_RuleSetCondition (RuleSetRule.resourceQuery rule) = true →
   uses (nullish_or (RuleSetRule.use rule) (JArr [])) options = Throw err →
   getRawModuleRule uses rule options = Throw err).
Proof.
  rewrite getRawModuleRule_unfold. split.
  - intros ->. reflexivity.
  - intros Ht Hi He Hr Hq Huse.
    destruct (condition_field_total _ Ht) as [t' ->].
    destruct (condition_field_total _ Hi) as [i' ->].
    destruct (condition_field_total _ He) as [e' ->].
    destruct (condition_field_total _ Hr) as [r' ->].
    destruct (condition_field_total _ Hq) as [q' ->].
    simpl. rewrite Huse. reflexivity.
Qed.

Lemma getRawModuleRule_first_error_witness :
  getRawModuleRule sample_uses (sample_rule (JNum 1) None) sample_options
    = Throw (Error unreachable_message) ∧
  getRawModuleRule (λ _ _, Throw (TypeError "loader"))
    (sample_rule (JStr "a") (Some [sample_rule JNull None])) sample_options
    = Throw (TypeError "loader").
Proof.
  split.
  - apply (proj1 (getRawModuleRule_first_error sample_uses sample_options
                    (sample_rule (JNum 1) None) (Error unreachable_message))).
    reflexivity.
  - apply (proj2 (getRawModuleRule_first_error
                    (λ _ _, Throw (TypeError "loader")) sample_options
                    (sample_rule (JStr "a") (Some [sample_rule JNull None]))
                    (TypeError "loader")));
      reflexivity.
Defined.

(** X8. A rule is compiled all or nothing, through its sub-rules: when the
    rule compiles without its [oneOf], the sub-rules before some sub-rule
    compile and that sub-rule fails, the rule fails with that sub-rule's
    error, whatever sub-rules follow. *)
Theorem getRawModuleRule_subrule_error
  (uses : JsValue → ComposeJsUseOptions → result JsValue)
  (options : ComposeJsUseOptions) (rule : RuleSetRule.t)
  (before : list RuleSetRule.t) (sub : RuleSetRule.t) (after : list RuleSetRule.t)
  (r : RawModuleRule.t) (done : list RawModuleRule.t) (err : Exception) :
  getRawModuleRule uses (with_oneOf rule None) options = Ok r →
  array_map (λ i, getRawModuleRule uses i options) before = Ok done →
  getRawModuleRule uses sub options = Throw err →
  getRawModuleRule uses (with_oneOf rule (Some (before ++ sub :: after))) options
    = Throw err.
Proof.
  intros Hrule Hbefore Hsub.
  pose proof (array_map_first_error (λ i, getRawModuleRule uses i options)
                before sub after done err Hbefore Hsub) as Hlist.
  rewrite getRawModuleRule_unfold in Hrule |- *.
  destruct rule as [t i e rs q s u ty p g rv iss o]; simpl in *.
  destruct (condition_field t); [| discriminate].
  destruct (condition_field i); [| discriminate].
  destruct (condition_field e); [| discriminate].
  destruct (condition_field rs); [| discriminate].
  destruct (condition_field q); [| discriminate].
  simpl in *. destruct (uses (nullish_or u (JArr [])) options); [| discriminate].
  simpl in *. destruct (condition_field iss); [| discriminate].
  simpl. rewrite Hlist. reflexivity.
Qed.

Lemma getRawModuleRule_subrule_error_witness :
  getRawModuleRule sample_uses
    (with_oneOf (sample_rule (JStr "a") None)
       (Some ([sample_rule (JStr "b") None] ++
              sample_rule (JBool true) None :: [sample_rule JNull None])))
    sample_options
  = Throw (Error unreachable_message).
Proof.
  apply (getRawModuleRule_subrule_error sample_uses sample_options
           (sample_rule (JStr "a") None) [sample_rule (JStr "b") None]
           (sample_rule (JBool true) None) [sample_rule JNull None]
           (sample_raw_rule (Some (RawString "a")) None)
           [sample_raw_rule (Some (RawString "b")) None]);
    reflexivity.
Defined.

(** X9. The module tree is compiled all or nothing, default rules first: a
    failure among the default rules is the result whatever the user rules
    are, and when the default rules compile, a failure among the user rules
    is the result. *)
Theorem getRawModule_first_error
  (uses : JsValue → ComposeJsUseOptions → result JsValue)
  (options : ComposeJsUseOptions)
  (defaults rules : list RuleSetRule.t) (parser : JsValue) (err : Exception) :
  (array_map (λ i, getRawModuleRule uses i options) defaults = Throw err →
   getRawModule uses (ModuleOptionsNormalized.mk (Some defaults) rules parser)
     options = Throw err) ∧
  (∀ d, array_map (λ i, getRawModuleRule uses i options) defaults = Ok d →
        array_map (λ i, getRawModuleRule uses i options) rules = Throw err →
        getRawModule uses (ModuleOptionsNormalized.mk (Some defaults) rules parser)
          options = Throw err).
Proof.
  unfold getRawModule; simpl. split.
  - intros H. rewrite (array_map_app_Throw_l _ _ rules err H). reflexivity.
  - intros d Hd H. rewrite (array_map_app_Throw_r _ _ _ d err Hd H). reflexivity.
Qed.

Lemma getRawModule_first_error_witness :
  getRawModule sample_uses
    (ModuleOptionsNormalized.mk (Some [sample_rule (JNum 1) None])
       [sample_rule (JStr "u") None] JUndefined) sample_options
    = Throw (Error unreachable_message) ∧
  getRawModule sample_uses
    (ModuleOptionsNormalized.mk (Some [sample_rule (JStr "d") None])
       [sample_rule (JStr "u") None; sample_rule (JNum 2) None] JUndefined)
    sample_options
    = Throw (Error unreachable_message).
Proof.
  split.
  - apply (proj1 (getRawModule_first_error sample_uses sample_options
                    [sample_rule (JNum 1) None] [sample_rule (JStr "u") None]
                    JUndefined (Error unreachable_message))).
    reflexivity.
  - apply (proj2 (getRawModule_first_error sample_uses sample_options
                    [sample_rule (JStr "d") None]
                    [sample_rule (JStr "u") None; sample_rule (JNum 2) None]
                    JUndefined (Error unreachable_message))
             [sample_raw_rule (Some (RawString "d")) None]);
      reflexivity.
Defined.

(** X10. The truthiness guard in front of a condition field never rejects: a
    falsy value of any type ([undefined], [null], [false], [0], the empty
    text) in [test], [include], [exclude], [resource], [resourceQuery] or
    [issuer] is dropped, and the rule compiles exactly as if the six fields
    were absent. *)
Theorem getRawModuleRule_falsy_conditions
  (uses : JsValue → ComposeJsUseOptions → result JsValue)
  (options : ComposeJsUseOptions) (rule : RuleSetRule.t)
  (test include exclude resource resourceQuery issuer : JsValue) :
  truthy test = false → truthy include = false → truthy exclude = false →
  truthy resource = false → truthy resourceQuery = false →
  truthy issuer = false →
  getRawModuleRule uses
    (with_conditions rule test include exclude resource resourceQuery issuer)
    options
  = getRawModuleRule uses
      (with_conditions rule JUndefined JUndefined JUndefined JUndefined
         JUndefined JUndefined)
      options.
Proof.
  intros Ht Hi He Hr Hq Hiss. rewrite !getRawModuleRule_unfold.
  destruct rule; simpl. unfold condition_field.
  rewrite Ht, Hi, He, Hr, Hq, Hiss. reflexivity.
Qed.

Lemma getRawModuleRule_falsy_conditions_witness :
  getRawModuleRule sample_uses
    (with_conditions (sample_rule (JStr "a") None)
       JNull (JBool false) (JNum 0) (JStr "") JUndefined JNull)
    sample_options
  = getRawModuleRule sample_uses
      (with_conditions (sample_rule (JStr "a") None)
         JUndefined JUndefined JUndefined JUndefined JUndefined JUndefined)
      sample_options.
Proof.
  apply (getRawModuleRule_falsy_conditions sample_uses sample_options
           (sample_rule (JStr "a") None)); reflexivity.
Defined.

(** ** More on the section encoders *)

(** X11. The entry encoder returns on every entry map. Its result has the
    keys of the input but [__proto__], which the assignment in the loop
    does not write as a key; under every other key the item carries the
    entry's import list unchanged (absent when absent) and the entry's
    runtime name, a [false] or absent runtime becoming an absent one. *)
Theorem getRawEntry_items (entry : gmap string EntryDescription.t) :
  ∃ raw, getRawEntry entry = Ok raw ∧
         dom raw = dom entry ∖ {[ "__proto__" ]} ∧
         ∀ key description,
           key ≠ "__proto__" →
           entry !! key = Some description →
           ∃ item, raw !! key = Some item ∧
                   RawEntryItem.import item = EntryDescription.import description ∧
                   RawEntryItem.runtime item =
                   match EntryDescription.runtime description with
                   | Some (RuntimeName name) => Some name
                   | Some RuntimeFalse | None => None
                   end.
Proof.
  eexists. split; [apply getRawEntry_Ok |].
  split; [rewrite dom_fmap_L; apply dom_delete_L |].
  intros key description Hkey Hentry.
  rewrite lookup_fmap, lookup_delete_ne by congruence. rewrite Hentry. simpl.
  eexists. split; [reflexivity |]. split; [reflexivity |].
  destruct (EntryDescription.runtime description) as [[|name]|]; reflexivity.
Qed.

(** X12. The target list is empty exactly for a falsy or empty target: an
    absent target, [false], the empty text, or the empty list. *)
Theorem getRawTarget_empty (target : option Target) :
  getRawTarget target = [] ↔
  target = None ∨ target = Some TargetFalse ∨
  target = Some (TargetString "") ∨ target = Some (TargetArray []).
Proof.
  destruct target as [[| s | l]|]; simpl.
  - split; auto.
  - destruct (String.eqb_spec s "") as [-> | Hne].
    + split; auto.
    + split; [discriminate |].
      intros [H | [H | [H | H]]]; try discriminate. congruence.
  - split.
    + intros ->. auto.
    + intros [H | [H | [H | H]]]; try discriminate. congruence.
  - split; auto.
Qed.

(** X13. When the output encoder returns, the nine required fields were all
    present and the record returned holds the ten fields of the input
    unchanged; [library] is not required and is passed on as it is. *)
Theorem getRawOutput_passthrough (output : OutputNormalized.t) (r : RawOutput.t) :
  getRawOutput output = Ok r →
  RawOutput.path r = OutputNormalized.path output ∧
  RawOutput.publicPath r = OutputNormalized.publicPath output ∧
  RawOutput.assetModuleFilename r = OutputNormalized.assetModuleFilename output ∧
  RawOutput.filename r = OutputNormalized.filename output ∧
  RawOutput.chunkFilename r = OutputNormalized.chunkFilename output ∧
  RawOutput.cssFilename r = OutputNormalized.cssFilename output ∧
  RawOutput.cssChunkFilename r = OutputNormalized.cssChunkFilename output ∧
  RawOutput.uniqueName r = OutputNormalized.uniqueName output ∧
  RawOutput.library r = OutputNormalized.library output ∧
  RawOutput.strictModuleErrorHandling r
    = OutputNormalized.strictModuleErrorHandling output ∧
  is_Some (RawOutput.path r) ∧ is_Some (RawOutput.publicPath r) ∧
  is_Some (RawOutput.assetModuleFilename r) ∧ is_Some (RawOutput.filename r) ∧
  is_Some (RawOutput.chunkFilename r) ∧ is_Some (RawOutput.cssFilename r) ∧
  is_Some (RawOutput.cssChunkFilename r) ∧ is_Some (RawOutput.uniqueName r) ∧
  is_Some (RawOutput.strictModuleErrorHandling r).
Proof.
  intros Hr. pose proof (getRawOutput_guard output) as H. rewrite Hr in H.
  destruct H as [(Hp & Hpp & Ha & Hf & Hc & Hcf & Hccf & Hu & Hs)
                   (-> & -> & -> & -> & -> & -> & -> & -> & -> & ->)].
  repeat split; try reflexivity;
    match goal with |- is_Some ?x => destruct x; [eexists; reflexivity | congruence] end.
Qed.

Lemma getRawOutput_passthrough_witness :
  ∃ r, getRawOutput (sample_output (Some "/dist")) = Ok r ∧
       RawOutput.path r = Some "/dist" ∧ RawOutput.library r = JUndefined.
Proof.
  eexists. split; [reflexivity |].
  destruct (getRawOutput_passthrough (sample_output (Some "/dist")) _ eq_refl)
    as (Hpath & _ & _ & _ & _ & _ & _ & _ & Hlibrary & _).
  split; [exact Hpath | exact Hlibrary].
Defined.

(** ** More on the optimization encoder *)

(** X14. The optimization encoder returns exactly when [moduleIds],
    [removeAvailableModules] and [sideEffects] are all present, whatever the
    split-chunks configuration is, and otherwise fails with an assertion
    error whose message names the three fields. *)
Theorem getRawOptimization_guard (optimization : Optimization.t) :
  guarded (getRawOptimization optimization) (Some optimization_message)
    (Optimization.moduleIds optimization = None ∨
     Optimization.removeAvailableModules optimization = None ∨
     Optimization.sideEffects optimization = None) ∧
  forallb (λ field, mentions field optimization_message)
    ["optimization.moduleIds"; "optimization.removeAvailableModules";
     "optimization.sideEffects"] = true.
Proof.
  split; [| reflexivity].
  unfold guarded, getRawOptimization.
  destruct optimization as [sc [ids|] [remove|] [side|]]; simpl; auto.
  intros [H | [H | H]]; discriminate.
Qed.

(** X15. In a returned optimization record [sideEffects] is the text of the
    input value: "true" or "false" for a boolean, the text itself for a
    text; so the boolean [true] and the text "true" are encoded alike.
    [moduleIds] and [removeAvailableModules] are passed on unchanged. *)
Theorem getRawOptimization_sideEffects
  (optimization : Optimization.t) (r : RawOptimization.t) :
  getRawOptimization optimization = Ok r →
  (∃ v, Optimization.sideEffects optimization = Some v ∧
        RawOptimization.sideEffects r =
        match v with
        | OfBoolean true => "true"
        | OfBoolean false => "false"
        | OfString s => s
        end) ∧
  RawOptimization.moduleIds r = Optimization.moduleIds optimization ∧
  RawOptimization.removeAvailableModules r
    = Optimization.removeAvailableModules optimization.
Proof.
  unfold getRawOptimization.
  destruct optimization as [sc [ids|] [remove|] [side|]]; simpl;
    try discriminate.
  intros [= <-]. simpl. split; [| split; reflexivity].
  exists side. split; [reflexivity |]. destruct side as [[|]|s]; reflexivity.
Qed.

Lemma getRawOptimization_sideEffects_witness :
  (∃ v, Some (OfBoolean true) = Some v ∧
        RawOptimization.sideEffects
          {| RawOptimization.splitChunks := None;
             RawOptimization.moduleIds := Some "named";
             RawOptimization.removeAvailableModules := Some true;
             RawOptimization.sideEffects := "true" |} =
        match v with
        | OfBoolean true => "true"
        | OfBoolean false => "false"
        | OfString s => s
        end) ∧
  Some "named" = Some "named" ∧ Some true = Some true.
Proof.
  apply (getRawOptimization_sideEffects (sample_optimization None)).
  reflexivity.
Defined.

(** X16. An empty cache-group map and an absent one cannot be told apart in
    the output: both give the empty cache-group record. *)
Theorem getRawSplitChunksOptions_empty_cacheGroups
  (chunks : option string)
  (maxAsyncRequests maxInitialRequests minChunks minSize enforceSizeThreshold
     minRemainingSize : option Z) :
  getRawSplitChunksOptions
    (OptimizationSplitChunksOptions.mk (Some ∅) chunks maxAsyncRequests
       maxInitialRequests minChunks minSize enforceSizeThreshold minRemainingSize)
  = getRawSplitChunksOptions
      (OptimizationSplitChunksOptions.mk None chunks maxAsyncRequests
         maxInitialRequests minChunks minSize enforceSizeThreshold
         minRemainingSize).
Proof.
  unfold getRawSplitChunksOptions. simpl.
  rewrite (Object_fromEntries_map normalizedGroup ∅), fmap_empty. reflexivity.
Qed.

(** X17. The snapshot encoder never fails on its destructurings, only on its
    assertions; and when it returns, the two sections of the result are the
    two sections of the input, with all four flags present. *)
Theorem getRawSnapshotOptions_copy (snapshot : SnapshotOptions.t) :
  (∀ message, getRawSnapshotOptions snapshot ≠ Throw (TypeError message)) ∧
  (∀ r, getRawSnapshotOptions snapshot = Ok r →
        SnapshotOptions.resolve snapshot = Some (RawSnapshotOptions.resolve r) ∧
        SnapshotOptions.module snapshot = Some (RawSnapshotOptions.module r) ∧
        is_Some (SnapshotSection.timestamp (RawSnapshotOptions.resolve r)) ∧
        is_Some (SnapshotSection.hash (RawSnapshotOptions.resolve r)) ∧
        is_Some (SnapshotSection.timestamp (RawSnapshotOptions.module r)) ∧
        is_Some (SnapshotSection.hash (RawSnapshotOptions.module r))).
Proof.
  pose proof (getRawSnapshotOptions_guard snapshot) as H. split.
  - intros message Hr. rewrite Hr in H. destruct H as [H _]. discriminate.
  - intros r Hr. rewrite Hr in H.
    destruct H as (Hresolve & Hmodule & Hrt & Hrh & Hmt & Hmh).
    repeat split; try assumption;
      match goal with
      | |- is_Some ?x => destruct x; [eexists; reflexivity | congruence]
      end.
Qed.

(** X18. The node encoder returns exactly when the directory-name marker is
    present, and the result holds its text: "true" or "false" for a boolean,
    the text itself ("mock", "warn-mock", ...) for a text. *)
Theorem getRawNode_dirname (node : Node) :
  match __dirname node with
  | None => getRawNode node = Throw (AssertionError None)
  | Some (OfBoolean b) =>
      getRawNode node = Ok {| dirname := if b then "true" else "false" |}
  | Some (OfString s) => getRawNode node = Ok {| dirname := s |}
  end.
Proof.
  destruct node as [[[[|]|s]|]]; reflexivity.
Qed.

(** ** The options translator *)

Section options_translator.

Variable uses : JsValue → ComposeJsUseOptions → result JsValue.
Variable normalize : JsValue → result StatsOptions.

(** With the three guarded fields present, the translator is the sequence of
    its section encoders. *)
Lemma getRawOptions_unfold (options : RspackOptionsNormalized.t)
  (compiler : JsValue) (context : string) (devtool : Devtool) (cache : bool) :
  RspackOptionsNormalized.context options = Some context →
  RspackOptionsNormalized.devtool options = Some devtool →
  RspackOptionsNormalized.cache options = Some cache →
  getRawOptions uses normalize options compiler =
  (entry ← getRawEntry (RspackOptionsNormalized.entry options);
   output ← getRawOutput (RspackOptionsNormalized.output options);
   module ← getRawModule uses (RspackOptionsNormalized.module options)
              {| compiler := compiler; devtool := devtool_text devtool;
                 context := context |};
   optimization ← getRawOptimization (RspackOptionsNormalized.optimization options);
   stats ← normalize (RspackOptionsNormalized.stats options);
   snapshot ← getRawSnapshotOptions (RspackOptionsNormalized.snapshot options);
   experiments ← getRawExperiments (RspackOptionsNormalized.experiments options);
   node ← getRawNode (RspackOptionsNormalized.node options);
   Ok (RawOptions.mk entry (RspackOptionsNormalized.mode options)
         (getRawTarget (RspackOptionsNormalized.target options)) context output
         (RspackOptionsNormalized.resolve options) module
         (externals_or_empty (RspackOptionsNormalized.externals options))
         (or_default (RspackOptionsNormalized.externalsType options) "")
         (devtool_text devtool) optimization
         (or_default (colors stats) false)
         (or_default (devServer_hot (RspackOptionsNormalized.devServer options))
            false)
         snapshot (getRawCache cache) experiments node
         (RspackOptionsNormalized.builtins options))).
Proof.
  intros Hcontext Hdevtool Hcache. unfold getRawOptions.
  rewrite Hcontext, Hdevtool, Hcache. reflexivity.
Qed.

(** What a returned record is made of. *)
Lemma getRawOptions_Ok (options : RspackOptionsNormalized.t)
  (compiler : JsValue) (raw : RawOptions.t) :
  getRawOptions uses normalize options compiler = Ok raw →
  ∃ context devtool cache stats,
    RspackOptionsNormalized.context options = Some context ∧
    RspackOptionsNormalized.devtool options = Some devtool ∧
    RspackOptionsNormalized.cache options = Some cache ∧
    getRawEntry (RspackOptionsNormalized.entry options) = Ok (RawOptions.entry raw) ∧
    getRawOutput (RspackOptionsNormalized.output options)
      = Ok (RawOptions.output raw) ∧
    getRawModule uses (RspackOptionsNormalized.module options)
      {| compiler := compiler; devtool := devtool_text devtool;
         context := context |} = Ok (RawOptions.module raw) ∧
    getRawOptimization (RspackOptionsNormalized.optimization options)
      = Ok (RawOptions.optimization raw) ∧
    normalize (RspackOptionsNormalized.stats options) = Ok stats ∧
    getRawSnapshotOptions (RspackOptionsNormalized.snapshot options)
      = Ok (RawOptions.snapshot raw) ∧
    getRawExperiments (RspackOptionsNormalized.experiments options)
      = Ok (RawOptions.experiments raw) ∧
    getRawNode (RspackOptionsNormalized.node options) = Ok (RawOptions.node raw) ∧
    raw = RawOptions.mk (RawOptions.entry raw)
            (RspackOptionsNormalized.mode options)
            (getRawTarget (RspackOptionsNormalized.target options)) context
            (RawOptions.output raw)
            (RspackOptionsNormalized.resolve options) (RawOptions.module raw)
            (externals_or_empty (RspackOptionsNormalized.externals options))
            (or_default (RspackOptionsNormalized.externalsType options) "")
            (devtool_text devtool) (RawOptions.optimization raw)
            (or_default (colors stats) false)
            (or_default
               (devServer_hot (RspackOptionsNormalized.devServer options)) false)
            (RawOptions.snapshot raw) (getRawCache cache)
            (RawOptions.experiments raw) (RawOptions.node raw)
            (RspackOptionsNormalized.builtins options).
Proof.
  intros H.
  destruct (RspackOptionsNormalized.context options) as [context|] eqn:Hcontext;
    [| unfold getRawOptions in H; rewrite Hcontext in H; discriminate].
  destruct (RspackOptionsNormalized.devtool options) as [devtool|] eqn:Hdevtool;
    [| unfold getRawOptions in H; rewrite Hcontext, Hdevtool in H; discriminate].
  destruct (RspackOptionsNormalized.cache options) as [cache|] eqn:Hcache;
    [| unfold getRawOptions in H; rewrite Hcontext, Hdevtool, Hcache in H;
       discriminate].
  rewrite (getRawOptions_unfold options compiler context devtool cache
             Hcontext Hdevtool Hcache) in H.
  apply bind_Ok in H as (entry & Hentry & H).
  apply bind_Ok in H as (output & Houtput & H).
  apply bind_Ok in H as (module & Hmodule & H).
  apply bind_Ok in H as (optimization & Hoptimization & H).
  apply bind_Ok in H as (stats & Hstats & H).
  apply bind_Ok in H as (snapshot & Hsnapshot & H).
  apply bind_Ok in H as (experiments & Hexperiments & H).
  apply bind_Ok in H as (node & Hnode & H).
  injection H as <-. exists context, devtool, cache, stats. simpl.
  repeat split; assumption.
Qed.

End options_translator.

(** X19. The translator checks [context], [devtool] and [cache] before
    anything else: when one of them is nil it fails with an assertion error
    whose message names the three fields, whatever the sections and the
    collaborators are. *)
Theorem getRawOptions_guard
  (uses : JsValue → ComposeJsUseOptions → result JsValue)
  (normalize : JsValue → result StatsOptions)
  (options : RspackOptionsNormalized.t) (compiler : JsValue) :
  RspackOptionsNormalized.context options = None ∨
  RspackOptionsNormalized.devtool options = None ∨
  RspackOptionsNormalized.cache options = None →
  getRawOptions uses normalize options compiler
    = Throw (AssertionError (Some options_message)) ∧
  forallb (λ field, mentions field options_message)
    ["context"; "devtool"; "cache"] = true.
Proof.
  intros Hnil. split; [| reflexivity]. unfold getRawOptions.
  destruct (RspackOptionsNormalized.context options);
    destruct (RspackOptionsNormalized.devtool options);
    destruct (RspackOptionsNormalized.cache options);
    try reflexivity.
  destruct Hnil as [H | [H | H]]; discriminate.
Qed.

Lemma getRawOptions_guard_witness :
  getRawOptions (λ _ _, Throw (TypeError "loader")) sample_stats
    (sample_config None (Some DevtoolFalse) (sample_output None)) JUndefined
    = Throw (AssertionError (Some options_message)) ∧
  forallb (λ field, mentions field options_message)
    ["context"; "devtool"; "cache"] = true.
Proof.
  apply (getRawOptions_guard (λ _ _, Throw (TypeError "loader")) sample_stats
           (sample_config None (Some DevtoolFalse) (sample_output None))).
  left. reflexivity.
Defined.

(** X20. Translation is all or nothing, section by section: once the guard
    has passed, the translator fails with the error of the first section
    that fails, in the order output, module, optimization, stats, snapshot,
    experiments, node, and it returns exactly when none of them fails. *)
Theorem getRawOptions_first_error
  (uses : JsValue → ComposeJsUseOptions → result JsValue)
  (normalize : JsValue → result StatsOptions)
  (options : RspackOptionsNormalized.t) (compiler : JsValue)
  (context : string) (devtool : Devtool) (cache : bool) :
  RspackOptionsNormalized.context options = Some context →
  RspackOptionsNormalized.devtool options = Some devtool →
  RspackOptionsNormalized.cache options = Some cache →
  error_of (getRawOptions uses normalize options compiler) =
  first_error
    [error_of (getRawOutput (RspackOptionsNormalized.output options));
     error_of (getRawModule uses (RspackOptionsNormalized.module options)
                 {| compiler := compiler; devtool := devtool_text devtool;
                    context := context |});
     error_of (getRawOptimization (RspackOptionsNormalized.optimization options));
     error_of (normalize (RspackOptionsNormalized.stats options));
     error_of (getRawSnapshotOptions (RspackOptionsNormalized.snapshot options));
     error_of (getRawExperiments (RspackOptionsNormalized.experiments options));
     error_of (getRawNode (RspackOptionsNormalized.node options))].
Proof.
  intros Hcontext Hdevtool Hcache.
  rewrite (getRawOptions_unfold uses normalize options compiler context devtool
             cache Hcontext Hdevtool Hcache).
  rewrite getRawEntry_Ok. simpl.
  destruct (getRawOutput _); simpl; [| reflexivity].
  destruct (getRawModule _ _ _); simpl; [| reflexivity].
  destruct (getRawOptimization _); simpl; [| reflexivity].
  destruct (normalize _); simpl; [| reflexivity].
  destruct (getRawSnapshotOptions _); simpl; [| reflexivity].
  destruct (getRawExperiments _); simpl; [| reflexivity].
  destruct (getRawNode _); reflexivity.
Qed.

Lemma getRawOptions_first_error_witness :
  error_of
    (getRawOptions (λ _ _, Throw (TypeError "loader")) sample_stats
       (sample_config (Some "/app") (Some DevtoolFalse) (sample_output None))
       JUndefined)
  = Some (AssertionError (Some output_message)).
Proof.
  rewrite (getRawOptions_first_error (λ _ _, Throw (TypeError "loader"))
             sample_stats
             (sample_config (Some "/app") (Some DevtoolFalse) (sample_output None))
             JUndefined "/app" DevtoolFalse true eq_refl eq_refl eq_refl).
  reflexivity.
Defined.

(** X21. Every section of a returned record is what its encoder returns on
    the section of the input, and [mode], [resolve] and [builtins] are passed
    on unchanged. *)
Theorem getRawOptions_sections
  (uses : JsValue → ComposeJsUseOptions → result JsValue)
  (normalize : JsValue → result StatsOptions)
  (options : RspackOptionsNormalized.t) (compiler : JsValue)
  (raw : RawOptions.t) :
  getRawOptions uses normalize options compiler = Ok raw →
  getRawEntry (RspackOptionsNormalized.entry options) = Ok (RawOptions.entry raw) ∧
  RawOptions.target raw = getRawTarget (RspackOptionsNormalized.target options) ∧
  getRawOutput (RspackOptionsNormalized.output options)
    = Ok (RawOptions.output raw) ∧
  getRawOptimization (RspackOptionsNormalized.optimization options)
    = Ok (RawOptions.optimization raw) ∧
  getRawSnapshotOptions (RspackOptionsNormalized.snapshot options)
    = Ok (RawOptions.snapshot raw) ∧
  getRawExperiments (RspackOptionsNormalized.experiments options)
    = Ok (RawOptions.experiments raw) ∧
  getRawNode (RspackOptionsNormalized.node options) = Ok (RawOptions.node raw) ∧
  RawOptions.mode raw = RspackOptionsNormalized.mode options ∧
  RawOptions.resolve raw = RspackOptionsNormalized.resolve options ∧
  RawOptions.builtins raw = RspackOptionsNormalized.builtins options.
Proof.
  intros H.
  destruct (getRawOptions_Ok uses normalize options compiler raw H)
    as (context & devtool & cache & stats & _ & _ & _ & Hentry & Houtput & _ &
        Hoptimization & _ & Hsnapshot & Hexperiments & Hnode & Hraw).
  rewrite Hraw. simpl. repeat split; assumption.
Qed.

Lemma sample_config_Ok :
  ∃ raw, getRawOptions sample_uses sample_stats
           (sample_config (Some "/app") (Some DevtoolFalse)
              (sample_output (Some "/dist"))) JUndefined = Ok raw.
Proof.
  assert (H : error_of
                (getRawOptions sample_uses sample_stats
                   (sample_config (Some "/app") (Some DevtoolFalse)
                      (sample_output (Some "/dist"))) JUndefined) = None).
  { unfold getRawOptions. simpl. rewrite getRawEntry_Ok. reflexivity. }
  destruct (getRawOptions _ _ _ _) as [raw|]; [| discriminate].
  exists raw. reflexivity.
Qed.

Lemma getRawOptions_sections_witness :
  ∃ raw, RawOptions.target raw = ["web"] ∧
         RawOptions.mode raw = Some "development" ∧
         getRawNode {| __dirname := Some (OfString "mock") |}
           = Ok (RawOptions.node raw).
Proof.
  destruct sample_config_Ok as [raw Hraw]. exists raw.
  destruct (getRawOptions_sections _ _ _ _ raw Hraw)
    as (_ & Htarget & _ & _ & _ & _ & Hnode & Hmode & _).
  repeat split; assumption.
Defined.

(** X22. [devtool: false] becomes the empty text, a mode is kept; and the
    module rules are compiled in a context holding that same text and the
    context directory of the result. *)
Theorem getRawOptions_devtool
  (uses : JsValue → ComposeJsUseOptions → result JsValue)
  (normalize : JsValue → result StatsOptions)
  (options : RspackOptionsNormalized.t) (compiler : JsValue)
  (raw : RawOptions.t) :
  getRawOptions uses normalize options compiler = Ok raw →
  (RspackOptionsNormalized.devtool options = Some DevtoolFalse ∧
   RawOptions.devtool raw = "" ∨
   RspackOptionsNormalized.devtool options
     = Some (DevtoolMode (RawOptions.devtool raw))) ∧
  RspackOptionsNormalized.context options = Some (RawOptions.context raw) ∧
  getRawModule uses (RspackOptionsNormalized.module options)
    {| compiler := compiler; devtool := RawOptions.devtool raw;
       context := RawOptions.context raw |} = Ok (RawOptions.module raw).
Proof.
  intros H.
  destruct (getRawOptions_Ok uses normalize options compiler raw H)
    as (context & devtool & cache & stats & Hcontext & Hdevtool & _ & _ & _ &
        Hmodule & _ & _ & _ & _ & _ & Hraw).
  rewrite Hraw. simpl. split; [| split; [exact Hcontext | exact Hmodule]].
  rewrite Hdevtool. destruct devtool as [|mode]; simpl; auto.
Qed.

Lemma getRawOptions_devtool_witness :
  ∃ raw, RawOptions.devtool raw = "" ∧ RawOptions.context raw = "/app" ∧
         getRawModule sample_uses sample_module
           {| compiler := JUndefined; devtool := RawOptions.devtool raw;
              context := RawOptions.context raw |} = Ok (RawOptions.module raw).
Proof.
  destruct sample_config_Ok as [raw Hraw]. exists raw.
  destruct (getRawOptions_devtool _ _ _ _ raw Hraw)
    as ([[_ Hdevtool] | Hdevtool] & Hcontext & Hmodule).
  - split; [exact Hdevtool |]. split; [| exact Hmodule].
    simpl in Hcontext. congruence.
  - discriminate Hdevtool.
Defined.

(** X23. The cache section of a returned record is the fixed descriptor:
    type "memory" when caching is on and "disable" when it is off, and every
    other field zero, false or empty. *)
Theorem getRawOptions_cache
  (uses : JsValue → ComposeJsUseOptions → result JsValue)
  (normalize : JsValue → result StatsOptions)
  (options : RspackOptionsNormalized.t) (compiler : JsValue)
  (raw : RawOptions.t) :
  getRawOptions uses normalize options compiler = Ok raw →
  ∃ cache, RspackOptionsNormalized.cache options = Some cache ∧
           RawOptions.cache raw =
           RawCacheOptions.mk (if cache then "memory" else "disable")
             0 0 false [] "" "" "" "".
Proof.
  intros H.
  destruct (getRawOptions_Ok uses normalize options compiler raw H)
    as (context & devtool & cache & stats & _ & _ & Hcache & _ & _ & _ & _ & _ &
        _ & _ & _ & Hraw).
  exists cache. split; [exact Hcache |]. rewrite Hraw. reflexivity.
Qed.

Lemma getRawOptions_cache_witness :
  ∃ raw cache, Some true = Some cache ∧
               RawOptions.cache raw =
               RawCacheOptions.mk (if cache then "memory" else "disable")
                 0 0 false [] "" "" "" "".
Proof.
  destruct sample_config_Ok as [raw Hraw]. exists raw.
  exact (getRawOptions_cache _ _ _ _ raw Hraw).
Defined.

(** X24. The optional scalars of a returned record are defaulted: externals
    are the empty record when absent or the empty text, the one-entry
    self-mapped record for a name, and the record itself for a record;
    [externalsType] is the empty text when absent; the stats colors flag is
    what the stats normalizer gives, [false] when it gives none; the
    dev-server [hot] flag is [false] when the dev server or the flag is
    absent. *)
Theorem getRawOptions_defaults
  (uses : JsValue → ComposeJsUseOptions → result JsValue)
  (normalize : JsValue → result StatsOptions)
  (options : RspackOptionsNormalized.t) (compiler : JsValue)
  (raw : RawOptions.t) :
  getRawOptions uses normalize options compiler = Ok raw →
  RawOptions.externals raw =
    match RspackOptionsNormalized.externals options with
    | None => ∅
    | Some (ExternalsString name) =>
        if decide (name = "") then ∅ else {[ name := name ]}
    | Some (ExternalsRecord record) => record
    end ∧
  RawOptions.externalsType raw =
    match RspackOptionsNormalized.externalsType options with
    | Some type => type
    | None => ""
    end ∧
  (∃ stats, normalize (RspackOptionsNormalized.stats options) = Ok stats ∧
            RawOptions.stats_colors raw =
            match colors stats with Some c => c | None => false end) ∧
  RawOptions.devServer_hot raw =
    match RspackOptionsNormalized.devServer options with
    | Some {| hot := Some h |} => h
    | Some {| hot := None |} | None => false
    end.
Proof.
  intros H.
  destruct (getRawOptions_Ok uses normalize options compiler raw H)
    as (context & devtool & cache & stats & _ & _ & _ & _ & _ & _ & _ & Hstats &
        _ & _ & _ & Hraw).
  rewrite Hraw. simpl. repeat split.
  - destruct (RspackOptionsNormalized.externals options) as [[name|record]|];
      simpl; try reflexivity.
    destruct (String.eqb_spec name "") as [-> | Hne].
    + reflexivity.
    + rewrite decide_False by exact Hne. reflexivity.
  - exists stats. split; [exact Hstats | reflexivity].
  - destruct (RspackOptionsNormalized.devServer options) as [[[h|]]|];
      reflexivity.
Qed.

Lemma getRawOptions_defaults_witness :
  ∃ raw, RawOptions.externals raw = ∅ ∧ RawOptions.externalsType raw = "" ∧
         RawOptions.stats_colors raw = false ∧
         RawOptions.devServer_hot raw = false.
Proof.
  destruct sample_config_Ok as [raw Hraw]. exists raw.
  destruct (getRawOptions_defaults _ _ _ _ raw Hraw)
    as (Hexternals & Htype & (stats & Hstats & Hcolors) & Hhot).
  split; [exact Hexternals |]. split; [exact Htype |]. split; [| exact Hhot].
  injection Hstats as <-. exact Hcolors.
Defined.

(** ** What the logical encoder reads *)

(** X25. Of an object the encoders read [and], [or] and [not] and nothing
    else: two objects that agree on these three keys are encoded alike,
    whatever their other properties and whether they are plain objects or
    functions; in particular an object with none of the three is encoded as
    the logical variant of a record with no key. *)
Theorem getRawRuleSetCondition_reads
  (cls cls' : ObjectClass) (get get' : string → JsValue) :
  get "and" = get' "and" → get "or" = get' "or" → get "not" = get' "not" →
  getRawRuleSetLogicalConditions (JObj cls get)
    = getRawRuleSetLogicalConditions (JObj cls' get') ∧
  getRawRuleSetCondition (JObj cls get) = getRawRuleSetCondition (JObj cls' get') ∧
  (get "and" = JUndefined → get "or" = JUndefined → get "not" = JUndefined →
   getRawRuleSetCondition (JObj cls get)
     = Ok (RawLogical [mkRawLogical None None None])).
Proof.
  intros Hand Hor Hnot.
  assert (H : logicalConditions getRawRuleSetCondition get
              = logicalConditions getRawRuleSetCondition get')
    by (unfold logicalConditions; rewrite Hand, Hor, Hnot; reflexivity).
  split; [exact H |]. split; [simpl; rewrite H; reflexivity |].
  intros Ha Ho Hn. simpl. unfold logicalConditions.
  rewrite Ha, Ho, Hn. reflexivity.
Qed.

Lemma getRawRuleSetCondition_reads_witness :
  getRawRuleSetCondition (object [("nor", JArr [JStr "a"]); ("flag", JBool true)])
    = getRawRuleSetCondition function ∧
  getRawRuleSetCondition (object [("nor", JArr [JStr "a"]); ("flag", JBool true)])
    = Ok (RawLogical [mkRawLogical None None None]).
Proof.
  destruct (getRawRuleSetCondition_reads PlainObject FunctionObject
              (lookup_prop [("nor", JArr [JStr "a"]); ("flag", JBool true)])
              (λ _, JUndefined) eq_refl eq_refl eq_refl)
    as (_ & Hsame & Hempty).
  split; [exact Hsame | apply Hempty; reflexivity].
Defined.
